(** * A contact-book assistant: shallow embedding of [oop_bot_v3.py]

    The development follows the layers of the program: the fragment of the
    Python runtime the program calls ([re], [datetime], [str]), the field
    classes ([Phone], [Birthday]), [Record], [AddressBook], and the command
    handlers wrapped by [input_error].

    Conventions.
    - A Python [str] is a Rocq [string]; its characters are the code points
      below 256.  In that range the regex class [\d] is exactly ['0'..'9'].
      Beyond it [\d] also matches the other decimal digits of Unicode
      (Arabic-Indic, fullwidth, ...), which the program therefore accepts
      in a phone and in the shape of a birthday; such strings are outside
      the model, and what is proved of "digits" is proved of the strings of
      this alphabet.
    - Python integers are [Z].
    - A call that may raise returns a [result]; the exception values are the
      raise sites of the program and of the runtime calls it makes.
    - [datetime.now()] is an input of the functions that read the clock. *)

From Stdlib Require Import ZArith List Bool Ascii String Lia.
Import ListNotations.
Open Scope string_scope.
Open Scope Z_scope.

(* ------------------------------------------------------------------------- *)
(** ** Strings *)

Definition LF : ascii := ascii_of_nat 10.
Definition DQUOTE : ascii := ascii_of_nat 34.

(** The regex class [\d] on a character below 256: ['0'..'9']. *)
Definition is_digit (c : ascii) : bool :=
  let n := N_of_ascii c in ((48 <=? n) && (n <=? 57))%N.

Definition in_range (lo hi c : ascii) : bool :=
  ((N_of_ascii lo <=? N_of_ascii c) && (N_of_ascii c <=? N_of_ascii hi))%N.

Definition digit_char (n : Z) : ascii := ascii_of_N (48 + Z.to_N n).

Definition digit_val (c : ascii) : Z := Z.of_N (N_of_ascii c) - 48.

(** [str.join] *)
Fixpoint join (sep : string) (l : list string) : string :=
  match l with
  | [] => ""
  | [x] => x
  | x :: rest => x ++ sep ++ join sep rest
  end.

Fixpoint contains (c : ascii) (s : string) : bool :=
  match s with
  | EmptyString => false
  | String a s' => Ascii.eqb a c || contains c s'
  end.

(** Decimal rendering of a non-negative integer, most significant digit
    first ([str(n)], ["%d" % n]). *)
Fixpoint digits_of (fuel : nat) (n : Z) (acc : string) : string :=
  match fuel with
  | O => acc
  | S f =>
      let acc' := String (digit_char (n mod 10)) acc in
      if n <? 10 then acc' else digits_of f (n / 10) acc'
  end.

Definition str_int (n : Z) : string :=
  if n <? 0 then "-" ++ digits_of (S (Z.to_nat (- n))) (- n) ""
  else digits_of (S (Z.to_nat n)) n "".

Fixpoint zeros (k : nat) : string :=
  match k with O => "" | S k' => String "0" (zeros k') end.

(** ["%0wd" % n] for [n >= 0]: left-padded with zeros up to width [w]. *)
Definition zfill (w : nat) (n : Z) : string :=
  let s := str_int n in zeros (w - String.length s) ++ s.

Definition hex_char (n : N) : ascii :=
  if (n <? 10)%N then ascii_of_N (48 + n) else ascii_of_N (87 + n).

(** [repr] of a [str]: quotes are chosen as CPython does, the quote and the
    backslash are escaped, and so are the characters that are not printable
    (below 256: the controls 0-31 and 127-159, the no-break space 160 and
    the soft hyphen 173). *)
Definition printable (c : ascii) : bool :=
  let n := N_of_ascii c in
  ((32 <=? n) && (n <? 127) || (161 <=? n) && negb (n =? 173))%N.

Definition repr_char (quote c : ascii) : string :=
  let n := N_of_ascii c in
  if Ascii.eqb c quote || Ascii.eqb c "\" then String "\" (String c "")
  else if (n =? 9)%N then "\t"
  else if (n =? 10)%N then "\n"
  else if (n =? 13)%N then "\r"
  else if printable c then String c ""
  else String "\" (String "x" (String (hex_char (n / 16)) (String (hex_char (n mod 16)) ""))).

Fixpoint repr_body (quote : ascii) (s : string) : string :=
  match s with
  | EmptyString => ""
  | String c s' => repr_char quote c ++ repr_body quote s'
  end.

Definition repr (s : string) : string :=
  let quote : ascii :=
    if contains "'" s && negb (contains DQUOTE s) then DQUOTE else "'"%char in
  String quote (repr_body quote s ++ String quote "").

(** [int(s)] on the strings the date parser passes to it: optional leading
    blanks, then decimal digits. *)
Fixpoint int_digits (s : string) (acc : Z) : option Z :=
  match s with
  | EmptyString => Some acc
  | String c s' =>
      if is_digit c then int_digits s' (10 * acc + digit_val c) else None
  end.

Fixpoint py_int (s : string) : option Z :=
  match s with
  | EmptyString => None
  | String c s' =>
      if Ascii.eqb c " " then py_int s' else int_digits s 0
  end.

(* ------------------------------------------------------------------------- *)
(** ** Exceptions *)

Inductive py_class : Type :=
| ValueError | KeyError | IndexError | OverflowError | Exception_.

(** Failures raised inside the [datetime] module. *)
Inductive date_error : Type :=
| NoMatch (data : string)        (* strptime: the format regex does not match *)
| Unconverted (rest : string)    (* strptime: input left after the match *)
| YearRange (year : Z)           (* year outside 1..9999 *)
| MonthRange                     (* month outside 1..12 *)
| DayRange                       (* day outside 1..days_in_month *)
| TimeRange (field : string) (hi : Z)   (* a time field outside 0..hi *)
| ResultRange.                   (* datetime + timedelta outside 0001..9999 *)

(** One constructor per raise site. *)
Inductive exn : Type :=
| PhoneFormat                        (* Phone.__init__: ValueError *)
| BirthdayFormat                     (* Birthday.__init__: ValueError *)
| DateError (why : date_error)       (* raised by datetime *)
| PhoneNotFound                      (* Record.edit_phone: ValueError *)
| ContactNotFound (name : string)    (* handlers: KeyError *)
| NoBirthday (name : string)         (* show_birthday: ValueError *)
| EmptyBook                          (* show_all: Exception *)
| MissingKey (key : string).         (* d[key] on an absent key: KeyError *)

Definition class_of (e : exn) : py_class :=
  match e with
  | PhoneFormat | BirthdayFormat | PhoneNotFound | NoBirthday _ => ValueError
  | DateError ResultRange => OverflowError
  | DateError _ => ValueError
  | ContactNotFound _ | MissingKey _ => KeyError
  | EmptyBook => Exception_
  end.

Definition date_error_str (why : date_error) : string :=
  match why with
  | NoMatch data =>
      "time data " ++ repr data ++ " does not match format " ++ repr "%d.%m.%Y"
  | Unconverted rest => "unconverted data remains: " ++ rest
  | YearRange y => "year " ++ str_int y ++ " is out of range"
  | MonthRange => "month must be in 1..12"
  | DayRange => "day is out of range for month"
  | TimeRange field hi => field ++ " must be in 0.." ++ str_int hi
  | ResultRange => "date value out of range"
  end.

(** [str(e)]; for a [KeyError] it is the [repr] of its argument. *)
Definition str_exn (e : exn) : string :=
  match e with
  | PhoneFormat => "Phone number must contain 10 digits"
  | BirthdayFormat => "Invalid date format. Use DD.MM.YYYY"
  | DateError why => date_error_str why
  | PhoneNotFound => "Phone number not found"
  | ContactNotFound name => repr ("Contact " ++ name ++ " does not exist")
  | NoBirthday name => "Contact " ++ name ++ " has no birthday"
  | EmptyBook => "No contacts found"
  | MissingKey key => repr key
  end.

Inductive result (A : Type) : Type :=
| Ok (a : A)
| Raise (e : exn).
Arguments Ok {A} a.
Arguments Raise {A} e.

Definition bind {A B : Type} (r : result A) (k : A -> result B) : result B :=
  match r with
  | Ok a => k a
  | Raise e => Raise e
  end.

Notation "x <- r ;; k" := (bind r (fun x => k))
  (at level 61, r at next level, right associativity).

(* ------------------------------------------------------------------------- *)
(** ** Regular expressions

    The fragment of [re] the program and [strptime] use: literals, [\d],
    character ranges, sequence, ordered alternation, bounded repetition,
    the anchors [^] and [$] (without MULTILINE) and named groups.  Matching
    backtracks as [re] does: the first alternative whose continuation
    succeeds wins. *)

Inductive regex : Type :=
| Chr (c : ascii)
| Digit                          (* \d *)
| Range (lo hi : ascii)          (* [lo-hi] *)
| Seq (r1 r2 : regex)
| Alt (r1 r2 : regex)            (* r1|r2 *)
| Rep (n : nat) (r : regex)      (* r{n} *)
| Bol                            (* ^ *)
| Eol                            (* $ *)
| Group (name : string) (r : regex).   (* (?P<name>r) *)

Definition captures := list (string * string).

(** What was consumed between the input [s] and its suffix [s']. *)
Definition consumed (s s' : string) : string :=
  substring 0 (String.length s - String.length s') s.

Section Matcher.
Context {A : Type}.

(** [rmatch r start s env k]: match [r] at the head of [s]; [start] tells
    whether [s] is the whole subject (position 0). *)
Fixpoint rmatch (r : regex) (start : bool) (s : string) (env : captures)
  (k : bool -> string -> captures -> option A) {struct r} : option A :=
  match r with
  | Chr c =>
      match s with
      | String a s' => if Ascii.eqb a c then k false s' env else None
      | EmptyString => None
      end
  | Digit =>
      match s with
      | String a s' => if is_digit a then k false s' env else None
      | EmptyString => None
      end
  | Range lo hi =>
      match s with
      | String a s' => if in_range lo hi a then k false s' env else None
      | EmptyString => None
      end
  | Seq r1 r2 =>
      rmatch r1 start s env (fun st s' env' => rmatch r2 st s' env' k)
  | Alt r1 r2 =>
      match rmatch r1 start s env k with
      | Some x => Some x
      | None => rmatch r2 start s env k
      end
  | Rep n r1 =>
      (fix rep (n : nat) (st : bool) (s : string) (env : captures) : option A :=
         match n with
         | O => k st s env
         | S n' => rmatch r1 st s env (fun st' s' env' => rep n' st' s' env')
         end) n start s env
  | Bol => if start then k start s env else None
  | Eol =>
      match s with
      | EmptyString => k start s env
      | String a EmptyString => if Ascii.eqb a LF then k start s env else None
      | _ => None
      end
  | Group name r1 =>
      rmatch r1 start s env
        (fun st s' env' => k st s' ((name, consumed s s') :: env'))
  end.

End Matcher.

(** [re.match(r, s)]: anchored at position 0; the result is the list of
    named groups and the unmatched suffix. *)
Definition re_match (r : regex) (s : string) : option (captures * string) :=
  rmatch r true s [] (fun _ s' env => Some (env, s')).

(** [r r1 ... rn] and [r|r1|...|rn]. *)
Fixpoint seq_of (r : regex) (rest : list regex) : regex :=
  match rest with
  | [] => r
  | r' :: rest' => Seq r (seq_of r' rest')
  end.

Fixpoint alt_of (r : regex) (rest : list regex) : regex :=
  match rest with
  | [] => r
  | r' :: rest' => Alt r (alt_of r' rest')
  end.

Fixpoint lookup (key : string) (env : captures) : option string :=
  match env with
  | [] => None
  | (k, v) :: rest => if String.eqb k key then Some v else lookup key rest
  end.

(* ------------------------------------------------------------------------- *)
(** ** The [datetime] module

    Proleptic Gregorian calendar arithmetic, after CPython's [datetime]. *)

Definition MINYEAR : Z := 1.
Definition MAXYEAR : Z := 9999.
Definition MAXORDINAL : Z := 3652059.

Definition DAYS_IN_MONTH : list Z :=
  [-1; 31; 28; 31; 30; 31; 30; 31; 31; 30; 31; 30; 31].

Definition DAYS_BEFORE_MONTH : list Z :=
  [-1; 0; 31; 59; 90; 120; 151; 181; 212; 243; 273; 304; 334].

Definition is_leap (year : Z) : bool :=
  (year mod 4 =? 0) && (negb (year mod 100 =? 0) || (year mod 400 =? 0)).

Definition days_before_year (year : Z) : Z :=
  let y := year - 1 in
  y * 365 + y / 4 - y / 100 + y / 400.

Definition days_in_month (year month : Z) : Z :=
  if (month =? 2) && is_leap year then 29
  else nth (Z.to_nat month) DAYS_IN_MONTH 0.

Definition days_before_month (year month : Z) : Z :=
  nth (Z.to_nat month) DAYS_BEFORE_MONTH 0
  + (if (2 <? month) && is_leap year then 1 else 0).

Definition ymd2ord (year month day : Z) : Z :=
  days_before_year year + days_before_month year month + day.

Definition DI400Y : Z := 146097.
Definition DI100Y : Z := 36524.
Definition DI4Y : Z := 1461.

Definition ord2ymd (ordinal : Z) : Z * Z * Z :=
  let n := ordinal - 1 in
  let n400 := n / DI400Y in
  let n := n mod DI400Y in
  let year := n400 * 400 + 1 in
  let n100 := n / DI100Y in
  let n := n mod DI100Y in
  let n4 := n / DI4Y in
  let n := n mod DI4Y in
  let n1 := n / 365 in
  let n := n mod 365 in
  let year := year + n100 * 100 + n4 * 4 + n1 in
  if (n1 =? 4) || (n100 =? 4) then (year - 1, 12, 31)
  else
    let leapyear := (n1 =? 3) && (negb (n4 =? 24) || (n100 =? 3)) in
    let month := Z.shiftr (n + 50) 5 in
    let preceding :=
      nth (Z.to_nat month) DAYS_BEFORE_MONTH 0
      + (if (2 <? month) && leapyear then 1 else 0) in
    if n <? preceding then
      let month := month - 1 in
      let preceding :=
        preceding - (nth (Z.to_nat month) DAYS_IN_MONTH 0
                     + (if (month =? 2) && leapyear then 1 else 0)) in
      (year, month, n - preceding + 1)
    else (year, month, n - preceding + 1).

Record datetime : Type := mk_datetime {
  year : Z; month : Z; day : Z;
  hour : Z; minute : Z; second : Z; microsecond : Z
}.

Definition check_date_fields (y m d : Z) : result unit :=
  if negb ((MINYEAR <=? y) && (y <=? MAXYEAR)) then Raise (DateError (YearRange y))
  else if negb ((1 <=? m) && (m <=? 12)) then Raise (DateError MonthRange)
  else if negb ((1 <=? d) && (d <=? days_in_month y m)) then Raise (DateError DayRange)
  else Ok tt.

Definition check_time_fields (h mi s us : Z) : result unit :=
  if negb ((0 <=? h) && (h <=? 23)) then Raise (DateError (TimeRange "hour" 23))
  else if negb ((0 <=? mi) && (mi <=? 59)) then Raise (DateError (TimeRange "minute" 59))
  else if negb ((0 <=? s) && (s <=? 59)) then Raise (DateError (TimeRange "second" 59))
  else if negb ((0 <=? us) && (us <=? 999999)) then
    Raise (DateError (TimeRange "microsecond" 999999))
  else Ok tt.

(** The constructor [datetime(year, month, day, hour, ...)]. *)
Definition datetime_new (y m d h mi s us : Z) : result datetime :=
  _ <- check_date_fields y m d ;;
  _ <- check_time_fields h mi s us ;;
  Ok (mk_datetime y m d h mi s us).

(** [dt.replace(year=y)] *)
Definition replace_year (dt : datetime) (y : Z) : result datetime :=
  datetime_new y (month dt) (day dt) (hour dt) (minute dt) (second dt)
    (microsecond dt).

Definition toordinal (dt : datetime) : Z :=
  ymd2ord (year dt) (month dt) (day dt).

(** [dt.weekday()]: Monday is 0, Sunday is 6. *)
Definition weekday (dt : datetime) : Z := (toordinal dt + 6) mod 7.

Fixpoint lex_lt (a b : list Z) : bool :=
  match a, b with
  | x :: a', y :: b' => (x <? y) || ((x =? y) && lex_lt a' b')
  | _, _ => false
  end.

Definition fields (dt : datetime) : list Z :=
  [year dt; month dt; day dt; hour dt; minute dt; second dt; microsecond dt].

(** [a < b] on naive datetimes. *)
Definition datetime_lt (a b : datetime) : bool := lex_lt (fields a) (fields b).

Record timedelta : Type := mk_timedelta {
  days : Z; seconds : Z; microseconds : Z
}.

(** The normalising constructor [timedelta(days, seconds, microseconds)]:
    [0 <= microseconds < 10^6] and [0 <= seconds < 86400] afterwards. *)
Definition timedelta_new (d s us : Z) : timedelta :=
  let s := s + us / 1000000 in
  let us := us mod 1000000 in
  let d := d + s / 86400 in
  let s := s mod 86400 in
  mk_timedelta d s us.

Definition day_seconds (dt : datetime) : Z :=
  second dt + minute dt * 60 + hour dt * 3600.

(** [a - b] on naive datetimes. *)
Definition datetime_sub (a b : datetime) : timedelta :=
  timedelta_new (toordinal a - toordinal b)
                (day_seconds a - day_seconds b)
                (microsecond a - microsecond b).

(** [dt + timedelta(days=n)] *)
Definition datetime_add_days (dt : datetime) (n : Z) : result datetime :=
  let delta :=
    timedelta_new (toordinal dt + n) (day_seconds dt) (microsecond dt) in
  if (0 <? days delta) && (days delta <=? MAXORDINAL) then
    let '(y, m, d) := ord2ymd (days delta) in
    Ok (mk_datetime y m d
          (seconds delta / 3600) (seconds delta mod 3600 / 60)
          (seconds delta mod 60) (microseconds delta))
  else Raise (DateError ResultRange).

(** [str(dt)], also what an f-string prints for [{dt}]:
    [isoformat(sep=' ')]. *)
Definition datetime_str (dt : datetime) : string :=
  zfill 4 (year dt) ++ "-" ++ zfill 2 (month dt) ++ "-" ++ zfill 2 (day dt)
  ++ " " ++ zfill 2 (hour dt) ++ ":" ++ zfill 2 (minute dt) ++ ":"
  ++ zfill 2 (second dt)
  ++ (if microsecond dt =? 0 then "" else "." ++ zfill 6 (microsecond dt)).

(** [strftime]: [%d] and [%m] are two digits; [%Y] is handed to the C
    library, which prints the year without padding. *)
Definition fmt_d (dt : datetime) : string := zfill 2 (day dt).
Definition fmt_m (dt : datetime) : string := zfill 2 (month dt).
Definition fmt_Y (dt : datetime) : string := str_int (year dt).

(** [dt.strftime("%d.%m.%Y")] *)
Definition strftime_dmY (dt : datetime) : string :=
  fmt_d dt ++ "." ++ fmt_m dt ++ "." ++ fmt_Y dt.

(** [dt.strftime("%Y-%m-%d")] *)
Definition strftime_Ymd (dt : datetime) : string :=
  fmt_Y dt ++ "-" ++ fmt_m dt ++ "-" ++ fmt_d dt.

(** The regex [strptime] builds for the format ["%d.%m.%Y"]:
    [(?P<d>3[0-1]|[1-2]\d|0[1-9]|[1-9]| [1-9])\.(?P<m>1[0-2]|0[1-9]|[1-9])\.(?P<Y>\d\d\d\d)] *)
Definition re_d : regex :=
  Group "d" (alt_of (Seq (Chr "3") (Range "0" "1"))
                    [ Seq (Range "1" "2") Digit;
                      Seq (Chr "0") (Range "1" "9");
                      Range "1" "9";
                      Seq (Chr " ") (Range "1" "9") ]).

Definition re_m : regex :=
  Group "m" (alt_of (Seq (Chr "1") (Range "0" "2"))
                    [ Seq (Chr "0") (Range "1" "9");
                      Range "1" "9" ]).

Definition re_Y : regex :=
  Group "Y" (seq_of Digit [Digit; Digit; Digit]).

Definition re_dmY : regex :=
  seq_of re_d [Chr "."; re_m; Chr "."; re_Y].

Definition group_int (name : string) (env : captures) : Z :=
  match lookup name env with
  | Some v => match py_int v with Some n => n | None => 0 end
  | None => 0
  end.

(** [datetime.strptime(data, "%d.%m.%Y")] *)
Definition strptime_dmY (data : string) : result datetime :=
  match re_match re_dmY data with
  | None => Raise (DateError (NoMatch data))
  | Some (env, rest) =>
      match rest with
      | String _ _ => Raise (DateError (Unconverted rest))
      | EmptyString =>
          datetime_new (group_int "Y" env) (group_int "m" env)
            (group_int "d" env) 0 0 0 0
      end
  end.

(* ------------------------------------------------------------------------- *)
(** ** Fields *)

(** [class Field]: an object holding one attribute, [value]. *)
Record Field (A : Type) : Type := mk_Field { value : A }.
Arguments mk_Field {A} value.
Arguments value {A} f.

Definition Name : Type := Field string.

Module Birthday.

Definition t : Type := Field datetime.

(** [re.match(r'^\d{2}\.\d{2}\.\d{4}$', birthday)] *)
Definition pattern : regex :=
  seq_of Bol [Rep 2 Digit; Chr "."; Rep 2 Digit; Chr "."; Rep 4 Digit; Eol].

Definition validate (birthday : string) : bool :=
  match re_match pattern birthday with Some _ => true | None => false end.

(** [Birthday(value)] *)
Definition init (v : string) : result t :=
  if negb (validate v) then Raise BirthdayFormat
  else
    birthday <- strptime_dmY v ;;
    Ok (mk_Field birthday).

End Birthday.

Module Phone.

Definition t : Type := Field string.

(** [re.match(r'^\d{10}$', phone)] *)
Definition pattern : regex := seq_of Bol [Rep 10 Digit; Eol].

Definition validate (phone : string) : bool :=
  match re_match pattern phone with Some _ => true | None => false end.

(** [Phone(value)] *)
Definition init (v : string) : result t :=
  if negb (validate v) then Raise PhoneFormat
  else Ok (mk_Field v).

End Phone.

(* ------------------------------------------------------------------------- *)
(** ** Record *)

Module Record_.

Record t : Type := mk {
  name : Name;
  phones : list Phone.t;
  birthday : option Birthday.t
}.

Definition add_phone (self : t) (phone : string) : result t :=
  p <- Phone.init phone ;;
  Ok (mk (name self) (phones self ++ [p])%list (birthday self)).

(** [Record(name, phone)] *)
Definition init (nm phone : string) : result t :=
  add_phone (mk (mk_Field nm) [] None) phone.

Definition remove_phone (self : t) (phone : string) : t :=
  mk (name self)
     (filter (fun p => negb (String.eqb (value p) phone)) (phones self))
     (birthday self).

(** The [for ... else] loop of [edit_phone]: the first phone whose value is
    [old_phone] gets the new value and the loop breaks; [None] when the loop
    runs to its end. *)
Fixpoint edit_loop (ps : list Phone.t) (old_phone new_phone : string)
  : option (list Phone.t) :=
  match ps with
  | [] => None
  | p :: rest =>
      if String.eqb (value p) old_phone then Some (mk_Field new_phone :: rest)
      else
        match edit_loop rest old_phone new_phone with
        | Some rest' => Some (p :: rest')
        | None => None
        end
  end.

Definition edit_phone (self : t) (old_phone new_phone : string) : result t :=
  match edit_loop (phones self) old_phone new_phone with
  | Some ps => Ok (mk (name self) ps (birthday self))
  | None => Raise PhoneNotFound
  end.

Definition add_birthday (self : t) (bday : string) : result t :=
  b <- Birthday.init bday ;;
  Ok (mk (name self) (phones self) (Some b)).

Fixpoint find_loop (ps : list Phone.t) (phone : string) : option Phone.t :=
  match ps with
  | [] => None
  | p :: rest => if String.eqb (value p) phone then Some p else find_loop rest phone
  end.

Definition find_phone (self : t) (phone : string) : option Phone.t :=
  find_loop (phones self) phone.

(** [Record.__str__] *)
Definition str (self : t) : string :=
  "Contact name: " ++ value (name self)
  ++ ", phones: " ++ join "; " (map value (phones self))
  ++ ", birthday: "
  ++ match birthday self with
     | Some b => datetime_str (value b)
     | None => "No info"
     end.

End Record_.

(* ------------------------------------------------------------------------- *)
(** ** AddressBook *)

(** A Python [dict] with [str] keys: the items in insertion order, every key
    at most once. *)
Section Dict.
Context {V : Type}.

Fixpoint dict_get (d : list (string * V)) (key : string) : option V :=
  match d with
  | [] => None
  | (k, v) :: rest => if String.eqb k key then Some v else dict_get rest key
  end.

(** [d[key]] *)
Definition dict_getitem (d : list (string * V)) (key : string) : result V :=
  match dict_get d key with
  | Some v => Ok v
  | None => Raise (MissingKey key)
  end.

(** [d[key] = v]: a present key keeps its place, a new key goes last. *)
Fixpoint dict_setitem (d : list (string * V)) (key : string) (v : V)
  : list (string * V) :=
  match d with
  | [] => [(key, v)]
  | (k, w) :: rest =>
      if String.eqb k key then (k, v) :: rest
      else (k, w) :: dict_setitem rest key v
  end.

(** [del d[key]] for a key that is present. *)
Fixpoint dict_delitem (d : list (string * V)) (key : string)
  : list (string * V) :=
  match d with
  | [] => []
  | (k, w) :: rest =>
      if String.eqb k key then rest else (k, w) :: dict_delitem rest key
  end.

Definition dict_values (d : list (string * V)) : list V := map snd d.

End Dict.

(** A [for] loop whose body may raise: the state after the last iteration,
    or the first exception. *)
Fixpoint for_each {S X : Type} (body : X -> S -> result S) (l : list X) (s : S)
  : result S :=
  match l with
  | [] => Ok s
  | x :: rest => s' <- body x s ;; for_each body rest s'
  end.

(** The dictionaries [get_upcoming_birthdays] returns. *)
Record congratulation : Type := mk_congratulation {
  entry_name : string;
  congratulation_date : string
}.

Module AddressBook.

(** [UserDict]: the book is its [data]. *)
Definition t : Type := list (string * Record_.t).

Definition add_record (self : t) (record : Record_.t) : t :=
  dict_setitem self (value (Record_.name record)) record.

Definition find (self : t) (nm : string) : option Record_.t :=
  dict_get self nm.

Definition delete (self : t) (nm : string) : t :=
  match dict_get self nm with
  | Some _ => dict_delitem self nm
  | None => self
  end.

Definition next_monday (d : datetime) : result datetime :=
  let days_to_monday := (7 - weekday d) mod 7 in
  datetime_add_days d days_to_monday.

(** Steps of the loop body of [get_upcoming_birthdays], for a record whose
    birthday is set. *)
Definition occurrence (today : datetime) (b : Birthday.t) : result datetime :=
  birthday_this_year <- replace_year (value b) (year today) ;;
  if datetime_lt birthday_this_year today
  then replace_year birthday_this_year (year today + 1)
  else Ok birthday_this_year.

Definition days_until (today birthday_this_year : datetime) : Z :=
  days (datetime_sub birthday_this_year today).

Definition congratulate (birthday_this_year : datetime) : result datetime :=
  if weekday birthday_this_year <? 5 then Ok birthday_this_year
  else next_monday birthday_this_year.

Definition loop_body (self : t) (today : datetime) (record : Record_.t)
  (upcoming_birthdays : list congratulation) : result (list congratulation) :=
  match Record_.birthday record with
  | None => Ok upcoming_birthdays
  | Some b =>
      birthday_this_year <- occurrence today b ;;
      let days_until_birthday := days_until today birthday_this_year in
      if (0 <=? days_until_birthday) && (days_until_birthday <=? 7) then
        date <- congratulate birthday_this_year ;;
        r <- dict_getitem self (value (Record_.name record)) ;;
        Ok (upcoming_birthdays
              ++ [mk_congratulation (value (Record_.name r)) (strftime_Ymd date)])%list
      else Ok upcoming_birthdays
  end.

(** [today] is the value of [datetime.now()] read at the start of the call. *)
Definition get_upcoming_birthdays (self : t) (today : datetime)
  : result (list congratulation) :=
  for_each (loop_body self today) (dict_values self) [].

End AddressBook.

(* ------------------------------------------------------------------------- *)
(** ** Command handlers *)

Definition NL : string := String LF "".

(** The decorator [input_error]: the handler's string, or the rendering of
    the exception it raised.  [ValueError], [KeyError] and [IndexError] have
    their own clauses; [except Exception] takes the rest. *)
Definition input_error (r : result string) : string :=
  match r with
  | Ok s => s
  | Raise e =>
      match class_of e with
      | ValueError | KeyError | IndexError => "Error: " ++ str_exn e
      | OverflowError | Exception_ =>
          "An unexpected error occurred: " ++ str_exn e
      end
  end.

(** The undecorated handlers.  A handler that changes the book returns the
    new book with its message; each of them raises before it has changed
    anything, so a raise leaves the book as it was. *)
Module Func.

Definition add_contact (book : AddressBook.t) (nm phone : string)
  : result (AddressBook.t * string) :=
  match AddressBook.find book nm with
  | None =>
      record <- Record_.init nm phone ;;
      Ok (AddressBook.add_record book record,
          "Contact " ++ nm ++ " has been added with phone number " ++ phone)
  | Some _ =>
      r <- dict_getitem book nm ;;
      r' <- Record_.add_phone r phone ;;
      Ok (dict_setitem book nm r',
          "Phone number " ++ phone ++ " has been added to contact " ++ nm)
  end.

Definition edit_contact_phone (book : AddressBook.t)
  (nm old_phone new_phone : string) : result (AddressBook.t * string) :=
  match AddressBook.find book nm with
  | None => Raise (ContactNotFound nm)
  | Some _ =>
      r <- dict_getitem book nm ;;
      r' <- Record_.edit_phone r old_phone new_phone ;;
      Ok (dict_setitem book nm r',
          "Contact " ++ nm ++ " has been changedphone number from "
          ++ old_phone ++ " to phone number " ++ new_phone)
  end.

Definition show_phones (book : AddressBook.t) (nm : string) : result string :=
  match AddressBook.find book nm with
  | None => Raise (ContactNotFound nm)
  | Some _ =>
      r <- dict_getitem book nm ;;
      let phone_numbers := join ", " (map value (Record_.phones r)) in
      Ok ("Phone numbers for " ++ nm ++ " are: " ++ phone_numbers)
  end.

Definition show_all (book : AddressBook.t) : result string :=
  match book with
  | [] => Raise EmptyBook
  | _ =>
      Ok (fold_left (fun res record => res ++ Record_.str record ++ NL)
            (dict_values book) "")
  end.

Definition add_birthday (book : AddressBook.t) (nm bday : string)
  : result (AddressBook.t * string) :=
  match AddressBook.find book nm with
  | None => Raise (ContactNotFound nm)
  | Some _ =>
      r <- dict_getitem book nm ;;
      r' <- Record_.add_birthday r bday ;;
      Ok (dict_setitem book nm r',
          "Birthday " ++ bday ++ " has been added to contact " ++ nm)
  end.

Definition show_birthday (book : AddressBook.t) (nm : string) : result string :=
  match AddressBook.find book nm with
  | None => Raise (ContactNotFound nm)
  | Some _ =>
      r <- dict_getitem book nm ;;
      match Record_.birthday r with
      | None => Raise (NoBirthday nm)
      | Some b =>
          Ok ("Birthday for " ++ nm ++ " is " ++ strftime_dmY (value b))
      end
  end.

Definition birthdays (book : AddressBook.t) (today : datetime) : result string :=
  upcoming_birthdays <- AddressBook.get_upcoming_birthdays book today ;;
  match upcoming_birthdays with
  | [] => Ok "No upcoming birthdays"
  | _ =>
      Ok ("Upcoming birthdays: " ++ NL
          ++ fold_left
               (fun res b =>
                  res ++ entry_name b ++ " - " ++ congratulation_date b ++ NL)
               upcoming_birthdays "")
  end.

End Func.

(** The decorated handlers, as the dispatch loop calls them: the book after
    the call and the string that is printed. *)
Definition decorated (book : AddressBook.t)
  (r : result (AddressBook.t * string)) : AddressBook.t * string :=
  match r with
  | Ok (book', s) => (book', input_error (Ok s))
  | Raise e => (book, input_error (Raise e))
  end.

Definition add_contact (book : AddressBook.t) (nm phone : string) :=
  decorated book (Func.add_contact book nm phone).

Definition edit_contact_phone (book : AddressBook.t) (nm old_phone new_phone : string) :=
  decorated book (Func.edit_contact_phone book nm old_phone new_phone).

Definition show_phones (book : AddressBook.t) (nm : string) : string :=
  input_error (Func.show_phones book nm).

Definition show_all (book : AddressBook.t) : string :=
  input_error (Func.show_all book).

Definition add_birthday (book : AddressBook.t) (nm bday : string) :=
  decorated book (Func.add_birthday book nm bday).

Definition show_birthday (book : AddressBook.t) (nm : string) : string :=
  input_error (Func.show_birthday book nm).

Definition birthdays (book : AddressBook.t) (today : datetime) : string :=
  input_error (Func.birthdays book today).

(** The handler calls the dispatch loop makes, each with the number of
    arguments the loop has checked. *)
Inductive command : Type :=
| Add (nm phone : string)
| Change (nm old_phone new_phone : string)
| ShowPhone (nm : string)
| All
| AddBirthday (nm bday : string)
| ShowBirthday (nm : string)
| Birthdays.

(** What the undecorated handler of a command does. *)
Definition func (c : command) (book : AddressBook.t) (today : datetime)
  : result (AddressBook.t * string) :=
  match c with
  | Add nm phone => Func.add_contact book nm phone
  | Change nm o n => Func.edit_contact_phone book nm o n
  | ShowPhone nm => s <- Func.show_phones book nm ;; Ok (book, s)
  | All => s <- Func.show_all book ;; Ok (book, s)
  | AddBirthday nm b => Func.add_birthday book nm b
  | ShowBirthday nm => s <- Func.show_birthday book nm ;; Ok (book, s)
  | Birthdays => s <- Func.birthdays book today ;; Ok (book, s)
  end.

(** One turn of the dispatch loop on a handler command: the book afterwards
    and the printed string. *)
Definition handle (c : command) (book : AddressBook.t) (today : datetime)
  : AddressBook.t * string :=
  match c with
  | Add nm phone => add_contact book nm phone
  | Change nm o n => edit_contact_phone book nm o n
  | ShowPhone nm => (book, show_phones book nm)
  | All => (book, show_all book)
  | AddBirthday nm b => add_birthday book nm b
  | ShowBirthday nm => (book, show_birthday book nm)
  | Birthdays => (book, birthdays book today)
  end.

(** Books the program can build: from the empty book, by handler calls. *)
Inductive reachable : AddressBook.t -> Prop :=
| reach_empty : reachable []
| reach_step (book : AddressBook.t) (c : command) (today : datetime) :
    reachable book -> reachable (fst (handle c book today)).

(* ------------------------------------------------------------------------- *)
(** ** Predicates of the specification, and functions the proofs use *)

Fixpoint all_digits (s : string) : bool :=
  match s with
  | EmptyString => true
  | String c s' => is_digit c && all_digits s'
  end.

(** "Exactly 10 decimal digits". *)
Definition ten_digits (s : string) : bool :=
  (String.length s =? 10)%nat && all_digits s.

(** The suffix left after [n] leading digits. *)
Fixpoint take_digits (n : nat) (s : string) : option string :=
  match n with
  | O => Some s
  | S n' =>
      match s with
      | String c s' => if is_digit c then take_digits n' s' else None
      | EmptyString => None
      end
  end.

(** The end of the subject as [$] sees it. *)
Definition at_end (s : string) : bool :=
  match s with
  | EmptyString => true
  | String a EmptyString => Ascii.eqb a LF
  | _ => false
  end.

(** The number two digit characters denote. *)
Definition two (c1 c2 : ascii) : Z := 10 * digit_val c1 + digit_val c2.

Definition four (c1 c2 c3 c4 : ascii) : Z :=
  1000 * digit_val c1 + 100 * digit_val c2 + 10 * digit_val c3 + digit_val c4.

(** Ten characters of the exact shape DD.MM.YYYY. *)
Definition shape_ok (d1 d2 p1 m1 m2 p2 y1 y2 y3 y4 : ascii) : bool :=
  is_digit d1 && is_digit d2 && Ascii.eqb p1 "."
  && is_digit m1 && is_digit m2 && Ascii.eqb p2 "."
  && is_digit y1 && is_digit y2 && is_digit y3 && is_digit y4.

(** A string of the exact shape DD.MM.YYYY, read as (day, month, year). *)
Definition dmY_fields (s : string) : option (Z * Z * Z) :=
  match s with
  | String d1 (String d2 (String p1 (String m1 (String m2 (String p2
      (String y1 (String y2 (String y3 (String y4 EmptyString))))))))) =>
      if shape_ok d1 d2 p1 m1 m2 p2 y1 y2 y3 y4
      then Some (two d1 d2, two m1 m2, four y1 y2 y3 y4)
      else None
  | _ => None
  end.

(** The suffix after ten leading characters of the shape DD.MM.YYYY. *)
Definition after_shape (s : string) : option string :=
  match s with
  | String d1 (String d2 (String p1 (String m1 (String m2 (String p2
      (String y1 (String y2 (String y3 (String y4 rest))))))))) =>
      if shape_ok d1 d2 p1 m1 m2 p2 y1 y2 y3 y4 then Some rest else None
  | _ => None
  end.

Definition dmY_shape (s : string) : bool :=
  match dmY_fields s with Some _ => true | None => false end.

(** The Gregorian calendar, as the specification means "a real calendar
    date": years count from 1. *)
Definition gregorian_leap (y : Z) : bool :=
  ((y mod 4 =? 0) && negb (y mod 100 =? 0)) || (y mod 400 =? 0).

Definition month_length (y m : Z) : Z :=
  match m with
  | 1 | 3 | 5 | 7 | 8 | 10 | 12 => 31
  | 4 | 6 | 9 | 11 => 30
  | 2 => if gregorian_leap y then 29 else 28
  | _ => 0
  end.

Definition real_date (dmy : Z * Z * Z) : bool :=
  let '(d, m, y) := dmy in
  (1 <=? y) && (1 <=? m) && (m <=? 12) && (1 <=? d) && (d <=? month_length y m).

(** The month and the day of the [n]-th day (from 0) of a year, as the last
    lines of [ord2ymd] compute them. *)
Definition month_day (leapyear : bool) (n : Z) : Z * Z :=
  let month := Z.shiftr (n + 50) 5 in
  let preceding :=
    nth (Z.to_nat month) DAYS_BEFORE_MONTH 0
    + (if (2 <? month) && leapyear then 1 else 0) in
  if n <? preceding then
    let month := month - 1 in
    let preceding :=
      preceding - (nth (Z.to_nat month) DAYS_IN_MONTH 0
                   + (if (month =? 2) && leapyear then 1 else 0)) in
    (month, n - preceding + 1)
  else (month, n - preceding + 1).

(** [month_day] inverts the day count within a year, checked at day [k]. *)
Definition month_day_check (leapyear : bool) (k : nat) : bool :=
  let n := Z.of_nat k in
  let '(m, d) := month_day leapyear n in
  (1 <=? m) && (m <=? 12)
  && (nth (Z.to_nat m) DAYS_BEFORE_MONTH 0
      + (if (2 <? m) && leapyear then 1 else 0) + d =? n + 1).

(** The time of day is in range. *)
Definition time_ok (dt : datetime) : Prop :=
  0 <= hour dt <= 23 /\ 0 <= minute dt <= 59 /\ 0 <= second dt <= 59
  /\ 0 <= microsecond dt <= 999999.

(** A record with at least one phone. *)
Definition has_phone (r : Record_.t) : Prop := Record_.phones r <> [].

(** What the constructor reports for fields that are not a date. *)
Definition date_fault (d m y : Z) : date_error :=
  if negb ((1 <=? y) && (y <=? 9999)) then YearRange y
  else if negb ((1 <=? m) && (m <=? 12)) then MonthRange
  else DayRange.

(** A string of the shape DD.MM.YYYY that names a real date. *)
Definition names_real_date (s : string) : bool :=
  match dmY_fields s with Some dmy => real_date dmy | None => false end.

(** The datetime a string of the shape DD.MM.YYYY denotes, at midnight. *)
Definition date_of (s : string) : datetime :=
  match dmY_fields s with
  | Some (d, m, y) => mk_datetime y m d 0 0 0 0
  | None => mk_datetime 0 0 0 0 0 0 0
  end.

(* ------------------------------------------------------------------------- *)
(** ** The dispatch loop *)

(** [str.isspace] on one character: below 256 the blanks are the controls
    9-13 and 28-31, the space, NEL (133) and the no-break space (160). *)
Definition is_space (c : ascii) : bool :=
  let n := N_of_ascii c in
  ((9 <=? n) && (n <=? 13) || (28 <=? n) && (n <=? 32)
   || (n =? 133) || (n =? 160))%N.

Fixpoint lstrip (s : string) : string :=
  match s with
  | EmptyString => ""
  | String c s' => if is_space c then lstrip s' else s
  end.

Fixpoint rstrip (s : string) : string :=
  match s with
  | EmptyString => ""
  | String c s' =>
      match rstrip s' with
      | EmptyString => if is_space c then "" else String c ""
      | r => String c r
      end
  end.

(** [s.strip()] *)
Definition strip (s : string) : string := lstrip (rstrip s).

(** [s.split()]: the maximal runs of characters that are not blank, in
    order; [word] is the run being read. *)
Fixpoint split_from (s : string) (word : string) : list string :=
  match s with
  | EmptyString => match word with EmptyString => [] | _ => [word] end
  | String c s' =>
      if is_space c then
        match word with
        | EmptyString => split_from s' ""
        | _ => word :: split_from s' ""
        end
      else split_from s' (word ++ String c "")
  end.

Definition split (s : string) : list string := split_from s "".

(** [str.lower] on one character: below 256 the capitals are A-Z and the
    accented capitals 192-222 without the multiplication sign (215). *)
Definition lower_char (c : ascii) : ascii :=
  let n := N_of_ascii c in
  if ((65 <=? n) && (n <=? 90)
      || (192 <=? n) && (n <=? 222) && negb (n =? 215))%N
  then ascii_of_N (n + 32) else c.

Fixpoint lower (s : string) : string :=
  match s with
  | EmptyString => ""
  | String c s' => String (lower_char c) (lower s')
  end.

(** [parse_input]: the command in lower case and its arguments; [None] is
    the [ValueError] the unpacking [cmd, *args = ...] raises when the line
    has no word. *)
Definition parse_input (user_input : string) : option (string * list string) :=
  match split user_input with
  | [] => None
  | cmd :: args => Some (lower (strip cmd), args)
  end.

Definition HELP : string :=
  "Commands:" ++ NL
  ++ "hello - greet the bot" ++ NL
  ++ "add [name] [phone] - add a contact" ++ NL
  ++ "change [name] [phone] - change the phone number of a contact" ++ NL
  ++ "phone [name] - show the phone number of a contact" ++ NL
  ++ "all - show all contacts" ++ NL
  ++ "add-birthday [name] [birthday] - add a birthday to a contact" ++ NL
  ++ "show-birthday [name] - show the birthday of a contact" ++ NL
  ++ "birthdays - show all upcoming birthdays" ++ NL
  ++ "close/exit - close the bot".

(** What one turn of the loop of [main] does with the line [input] read:
    it goes on with a book after printing, it saves the book and leaves the
    loop, or an exception that [main] does not catch ends the program. *)
Inductive outcome : Type :=
| Continue (book : AddressBook.t) (printed : list string)
| Break (saved : AddressBook.t) (printed : list string)
| Uncaught.

(** The [match command] statement. *)
Definition dispatch (book : AddressBook.t) (today : datetime)
  (command : string) (args : list string) : outcome :=
  if String.eqb command "hello" then
    Continue book ["Hello! How can I help you?"]
  else if String.eqb command "add" then
    match args with
    | [nm; phone] =>
        let '(book', s) := add_contact book nm phone in Continue book' [s]
    | _ =>
        Continue book
          ["Invalid number of arguments for command 'add'. Please enter a name and phone number"]
    end
  else if String.eqb command "change" then
    match args with
    | [nm; old_phone; new_phone] =>
        let '(book', s) := edit_contact_phone book nm old_phone new_phone in
        Continue book' [s]
    | _ =>
        Continue book
          ["Invalid number of arguments for command 'change'. Please enter a name, old phone number and new phone number"]
    end
  else if String.eqb command "phone" then
    match args with
    | [nm] => Continue book [show_phones book nm]
    | _ =>
        Continue book
          ["Invalid number of arguments for command 'phone'. Please enter a name"]
    end
  else if String.eqb command "all" then
    Continue book [show_all book]
  else if String.eqb command "add-birthday" then
    match args with
    | [nm; bday] =>
        let '(book', s) := add_birthday book nm bday in Continue book' [s]
    | _ =>
        Continue book
          ["Invalid number of arguments for command 'add-birthday'. Please enter a name and birthday"]
    end
  else if String.eqb command "show-birthday" then
    match args with
    | [nm] => Continue book [show_birthday book nm]
    | _ =>
        Continue book
          ["Invalid number of arguments for command 'show-birthday'. Please enter a name"]
    end
  else if String.eqb command "birthdays" then
    Continue book [birthdays book today]
  else if String.eqb command "close" || String.eqb command "exit" then
    Break book ["Goodbye!"]
  else if String.eqb command "help" then
    Continue book [HELP]
  else
    Continue book ["Invalid command. Please try again"; HELP].

(** The body of the [while True] loop of [main] on the line [input]
    returned, with [today] the clock the [birthdays] handler reads. *)
Definition main_loop_body (book : AddressBook.t) (today : datetime)
  (line : string) : outcome :=
  let user_input := strip line in
  match parse_input user_input with
  | None => Uncaught
  | Some (command, args) => dispatch book today command args
  end.

(** No character of the string is blank. *)
Fixpoint no_space (s : string) : bool :=
  match s with
  | EmptyString => true
  | String c s' => negb (is_space c) && no_space s'
  end.

(** The keys of a book are distinct and each is the name of its record. *)
Definition well_formed (book : AddressBook.t) : Prop :=
  NoDup (map fst book)
  /\ Forall (fun kv => value (Record_.name (snd kv)) = fst kv) book.

(** Every character of the string is blank. *)
Fixpoint all_space (s : string) : bool :=
  match s with
  | EmptyString => true
  | String c s' => is_space c && all_space s'
  end.

(** The contact a handler call names, if it names one. *)
Definition target (c : command) : option string :=
  match c with
  | Add nm _ | Change nm _ _ | ShowPhone nm | AddBirthday nm _
  | ShowBirthday nm => Some nm
  | All | Birthdays => None
  end.

(** The phones of a contact, as strings; none for an unknown contact. *)
Definition phones_of (book : AddressBook.t) (nm : string) : list string :=
  match AddressBook.find book nm with
  | Some r => map value (Record_.phones r)
  | None => []
  end.

(** The commands that may change the book. *)
Definition writes (command : string) : bool :=
  String.eqb command "add" || String.eqb command "change"
  || String.eqb command "add-birthday".

(* ------------------------------------------------------------------------- *)
(** ** The upcoming birthdays, as the specification words them *)

(** The fields of a date are those of a day of the calendar. *)
Definition date_ok (dt : datetime) : Prop :=
  1 <= year dt <= 9999 /\ 1 <= month dt <= 12
  /\ 1 <= day dt <= days_in_month (year dt) (month dt).

(** The day [k] days after [dt], at the same time of day. *)
Definition plus_days (dt : datetime) (k : Z) : datetime :=
  let '(y, m, d) := ord2ymd (toordinal dt + k) in
  mk_datetime y m d (hour dt) (minute dt) (second dt) (microsecond dt).

(** The congratulation date of an occurrence: the occurrence itself from
    Monday to Friday, two days later for a Saturday, one day later for a
    Sunday. *)
Definition congratulation_day (occ : datetime) : datetime :=
  if weekday occ <? 5 then occ
  else if weekday occ =? 5 then plus_days occ 2
  else plus_days occ 1.

(** The occurrence is from zero to seven days after [today]. *)
Definition in_window (today occ : datetime) : bool :=
  (0 <=? AddressBook.days_until today occ)
  && (AddressBook.days_until today occ <=? 7).

(** What the query owes one record: nothing without a birthday or outside
    the window, else one entry under the name the book holds for the record,
    dated on the congratulation day of the occurrence. *)
Definition entry_for (book : AddressBook.t) (today : datetime)
  (record : Record_.t) : result (option congratulation) :=
  match Record_.birthday record with
  | None => Ok None
  | Some b =>
      occ <- AddressBook.occurrence today b ;;
      if in_window today occ then
        r <- dict_getitem book (value (Record_.name record)) ;;
        Ok (Some (mk_congratulation (value (Record_.name r))
                    (strftime_Ymd (congratulation_day occ))))
      else Ok None
  end.

(** The same with the record's own name, and no lookup. *)
Definition own_entry (today : datetime) (record : Record_.t)
  : result (option congratulation) :=
  match Record_.birthday record with
  | None => Ok None
  | Some b =>
      occ <- AddressBook.occurrence today b ;;
      if in_window today occ then
        Ok (Some (mk_congratulation (value (Record_.name record))
                    (strftime_Ymd (congratulation_day occ))))
      else Ok None
  end.

(** The entries owed, in order, or the first exception. *)
Fixpoint collect {A : Type} (l : list (result (option A))) : result (list A) :=
  match l with
  | [] => Ok []
  | r :: rest =>
      o <- r ;;
      new <- collect rest ;;
      Ok (match o with Some a => a :: new | None => new end)
  end.

(** The record has a birthday whose occurrence is in the window. *)
Definition is_kept (today : datetime) (record : Record_.t) : bool :=
  match Record_.birthday record with
  | None => false
  | Some b =>
      match AddressBook.occurrence today b with
      | Ok occ => in_window today occ
      | Raise _ => false
      end
  end.

(* ------------------------------------------------------------------------- *)
(** ** The matcher on the patterns of the program *)

Lemma rmatch_rep_S {A : Type} (n : nat) (r : regex) (st : bool) (s : string)
  (env : captures) (k : bool -> string -> captures -> option A) :
  rmatch (Rep (S n) r) st s env k
  = rmatch r st s env (fun st' s' env' => rmatch (Rep n r) st' s' env' k).
Proof. reflexivity. Qed.

Lemma rmatch_seq {A : Type} (r1 r2 : regex) (st : bool) (s : string)
  (env : captures) (k : bool -> string -> captures -> option A) :
  rmatch (Seq r1 r2) st s env k
  = rmatch r1 st s env (fun st' s' env' => rmatch r2 st' s' env' k).
Proof. reflexivity. Qed.

Lemma rmatch_bol {A : Type} (st : bool) (s : string)
  (env : captures) (k : bool -> string -> captures -> option A) :
  rmatch Bol st s env k = if st then k st s env else None.
Proof. reflexivity. Qed.

Lemma rmatch_chr {A : Type} (c : ascii) (st : bool) (s : string)
  (env : captures) (k : bool -> string -> captures -> option A) :
  rmatch (Chr c) st s env k
  = match s with
    | String a s' => if Ascii.eqb a c then k false s' env else None
    | EmptyString => None
    end.
Proof. reflexivity. Qed.

Lemma rmatch_digit {A : Type} (st : bool) (c : ascii) (s : string)
  (env : captures) (k : bool -> string -> captures -> option A) :
  rmatch Digit st (String c s) env k
  = if is_digit c then k false s env else None.
Proof. reflexivity. Qed.

Lemma rmatch_rep_digit {A : Type} (n : nat) :
  forall (st : bool) (s : string) (env : captures)
         (k : bool -> string -> captures -> option A),
    rmatch (Rep n Digit) st s env k
    = match take_digits n s with
      | Some rest => k (match n with O => st | S _ => false end) rest env
      | None => None
      end.
Proof.
  induction n as [|n IH]; intros st s env k.
  - reflexivity.
  - rewrite rmatch_rep_S. destruct s as [|c s']; [reflexivity|].
    rewrite rmatch_digit. cbn [take_digits]. destruct (is_digit c); [|reflexivity].
    rewrite IH. destruct (take_digits n s'); [|reflexivity].
    now destruct n.
Qed.

Lemma rmatch_eol {A : Type} (st : bool) (s : string) (env : captures)
  (k : bool -> string -> captures -> option A) :
  rmatch Eol st s env k = if at_end s then k st s env else None.
Proof.
  destruct s as [|a [|b s']]; cbn; try reflexivity.
Qed.

Lemma take_digits_app (n : nat) :
  forall s rest,
    take_digits n s = Some rest <->
    exists ds, String.length ds = n /\ all_digits ds = true /\ s = ds ++ rest.
Proof.
  induction n as [|n IH]; intros s rest; cbn.
  - split.
    + intros [= ->]. now exists "".
    + intros (ds & Hl & _ & ->). destruct ds; [reflexivity|discriminate].
  - destruct s as [|c s'].
    + split; [discriminate|]. intros (ds & Hl & _ & Hs).
      destruct ds; discriminate.
    + destruct (is_digit c) eqn:Hc.
      * rewrite IH. split.
        -- intros (ds & Hl & Hd & ->). exists (String c ds). cbn.
           rewrite Hc, Hd, Hl. auto.
        -- intros (ds & Hl & Hd & Hs). destruct ds as [|c' ds]; [discriminate|].
           cbn in *. injection Hs as -> ->. injection Hl as Hl.
           apply andb_true_iff in Hd as [_ Hd]. now exists ds.
      * split; [discriminate|]. intros (ds & Hl & Hd & Hs).
        destruct ds as [|c' ds]; [discriminate|]. cbn in *.
        injection Hs as -> ->. rewrite Hc in Hd. discriminate.
Qed.

Lemma at_end_cases (s : string) : at_end s = true <-> s = "" \/ s = NL.
Proof.
  destruct s as [|a [|b s']]; cbn.
  - intuition.
  - rewrite Ascii.eqb_eq. unfold NL. split.
    + intros ->. now right.
    + intros [H|H]; [discriminate|]. now injection H.
  - split; [discriminate|]. intros [H|H]; discriminate.
Qed.

Lemma phone_validate_take (s : string) :
  Phone.validate s
  = match take_digits 10 s with Some rest => at_end rest | None => false end.
Proof.
  unfold Phone.validate, re_match, Phone.pattern. cbn [seq_of].
  rewrite rmatch_seq, rmatch_bol, rmatch_seq, rmatch_rep_digit. destruct (take_digits 10 s) as [rest|]; [|reflexivity].
  rewrite rmatch_eol. now destruct (at_end rest).
Qed.

Lemma append_empty_r (s : string) : s ++ "" = s.
Proof. induction s as [|c s IH]; cbn; [reflexivity|now rewrite IH]. Qed.

Lemma phone_validate_spec (s : string) :
  Phone.validate s = true <->
  exists ds, ten_digits ds = true /\ (s = ds \/ s = ds ++ NL).
Proof.
  rewrite phone_validate_take. unfold ten_digits. split.
  - destruct (take_digits 10 s) as [rest|] eqn:Ht; [|discriminate].
    intros He. apply take_digits_app in Ht as (ds & Hl & Hd & ->).
    exists ds. rewrite Hl, Hd. split; [reflexivity|].
    apply at_end_cases in He as [-> | ->]; [left; apply append_empty_r | now right].
  - intros (ds & Ht & Hs). apply andb_true_iff in Ht as [Hl Hd].
    apply Nat.eqb_eq in Hl.
    assert (Hk : exists rest, s = ds ++ rest /\ at_end rest = true).
    { destruct Hs as [-> | ->]; [exists ""|exists NL]; split; auto.
      symmetry; apply append_empty_r. }
    destruct Hk as (rest & -> & He).
    replace (take_digits 10 (ds ++ rest)) with (Some rest); [exact He|].
    symmetry. apply take_digits_app. now exists ds.
Qed.

(** What phone validation does: it accepts exactly the strings of ten
    decimal digits and those followed by one line feed (the anchor [$] also
    matches before a final newline); [Phone] construction, [add_phone] and
    [Record] creation raise the format error exactly when validation
    rejects, and store the string as given otherwise. *)
Lemma phone_validation_cases (s : string) :
  (Phone.validate s = true <->
   exists ds, ten_digits ds = true /\ (s = ds \/ s = ds ++ NL))
  /\ Phone.init s
     = (if Phone.validate s then Ok (mk_Field s) else Raise PhoneFormat)
  /\ (forall r : Record_.t,
        Record_.add_phone r s
        = if Phone.validate s
          then Ok (Record_.mk (Record_.name r)
                     (Record_.phones r ++ [mk_Field s]) (Record_.birthday r))
          else Raise PhoneFormat)
  /\ (forall nm : string,
        Record_.init nm s
        = if Phone.validate s
          then Ok (Record_.mk (mk_Field nm) [mk_Field s] None)
          else Raise PhoneFormat).
Proof.
  split; [apply phone_validate_spec|].
  assert (Hi : Phone.init s
               = if Phone.validate s then Ok (mk_Field s) else Raise PhoneFormat).
  { unfold Phone.init. now destruct (Phone.validate s). }
  split; [exact Hi|]. split.
  - intros r. unfold Record_.add_phone. rewrite Hi.
    now destruct (Phone.validate s).
  - intros nm. unfold Record_.init, Record_.add_phone. rewrite Hi.
    now destruct (Phone.validate s).
Qed.

(** C3 fails on the code: validation accepts ten digits followed by a line
    feed, a string of eleven characters that does not consist of exactly ten
    digits; [Phone] construction and [add] store it as a phone. *)
Theorem C3_trailing_newline_accepted :
  let s := "1234567890" ++ NL in
  String.length s = 11%nat
  /\ ten_digits s = false
  /\ Phone.validate s = true
  /\ ~ (Phone.validate s = true <-> ten_digits s = true)
  /\ Phone.init s = Ok (mk_Field s)
  /\ fst (add_contact [] "Ann" s)
     = [("Ann", Record_.mk (mk_Field "Ann") [mk_Field s] None)].
Proof.
  cbv zeta. repeat split; try reflexivity.
  intros [H _]. specialize (H eq_refl). discriminate H.
Qed.

(* ------------------------------------------------------------------------- *)
(** ** Birthdays: validation and parsing *)

Lemma is_digit_cases (c : ascii) :
  is_digit c = true ->
  In c ["0"; "1"; "2"; "3"; "4"; "5"; "6"; "7"; "8"; "9"]%char.
Proof.
  destruct c as [[] [] [] [] [] [] [] []]; cbn; intros H;
    try discriminate H; tauto.
Qed.

Lemma is_digit_not_dot (c : ascii) : is_digit c = true -> Ascii.eqb c "." = false.
Proof.
  intros H. apply is_digit_cases in H. cbn in H.
  repeat (destruct H as [<-|H]; [reflexivity|]). contradiction.
Qed.

Lemma is_digit_not_blank (c : ascii) : is_digit c = true -> Ascii.eqb c " " = false.
Proof.
  intros H. apply is_digit_cases in H. cbn in H.
  repeat (destruct H as [<-|H]; [reflexivity|]). contradiction.
Qed.

Lemma digit_val_range (c : ascii) : is_digit c = true -> 0 <= digit_val c <= 9.
Proof.
  intros H. apply is_digit_cases in H. cbn in H.
  repeat (destruct H as [<-|H]; [cbn; lia|]). contradiction.
Qed.

Lemma digit_char_val (c : ascii) : is_digit c = true -> digit_char (digit_val c) = c.
Proof.
  intros H. apply is_digit_cases in H. cbn in H.
  repeat (destruct H as [<-|H]; [reflexivity|]). contradiction.
Qed.

Lemma length_app (p rest : string) :
  String.length (p ++ rest) = (String.length p + String.length rest)%nat.
Proof. induction p as [|c p IH]; cbn; [reflexivity|now rewrite IH]. Qed.

Lemma consumed_app (p rest : string) : consumed (p ++ rest) rest = p.
Proof.
  unfold consumed. rewrite length_app, Nat.add_sub.
  induction p as [|c p IH]; cbn.
  - now destruct rest.
  - now rewrite IH.
Qed.

Lemma consumed2 (a b : ascii) (rest : string) :
  consumed (String a (String b rest)) rest = String a (String b "").
Proof. apply (consumed_app (String a (String b "")) rest). Qed.

Lemma consumed4 (a b c d : ascii) (rest : string) :
  consumed (String a (String b (String c (String d rest)))) rest
  = String a (String b (String c (String d ""))).
Proof.
  apply (consumed_app (String a (String b (String c (String d "")))) rest).
Qed.

Lemma rmatch_group {A : Type} (name : string) (r : regex) (st : bool)
  (s : string) (env : captures) (k : bool -> string -> captures -> option A) :
  rmatch (Group name r) st s env k
  = rmatch r st s env
      (fun st' s' env' => k st' s' ((name, consumed s s') :: env')).
Proof. reflexivity. Qed.

(** The day group followed by the dot: two digits are taken together, and
    only when they read 01..31. *)
Lemma rmatch_day {A : Type} (R : regex) (d1 d2 : ascii) (rest : string)
  (st : bool) (env : captures) (k : bool -> string -> captures -> option A) :
  is_digit d1 = true -> is_digit d2 = true ->
  rmatch (Seq re_d (Seq (Chr ".") R)) st
    (String d1 (String d2 (String "." rest))) env k
  = if (1 <=? two d1 d2) && (two d1 d2 <=? 31)
    then rmatch R false rest (("d", String d1 (String d2 "")) :: env) k
    else None.
Proof.
  intros H1 H2. unfold re_d. rewrite rmatch_seq, rmatch_group.
  apply is_digit_cases in H1, H2. cbn in H1, H2.
  repeat (destruct H1 as [<-|H1]; [|]); try contradiction;
    repeat (destruct H2 as [<-|H2]; [|]); try contradiction;
    cbn -[consumed]; rewrite ?consumed2; try reflexivity;
    match goal with |- context [rmatch R ?a ?b ?c ?d] =>
      now destruct (rmatch R a b c d) end.
Qed.

(** The month group followed by the dot: 01..12. *)
Lemma rmatch_month {A : Type} (R : regex) (m1 m2 : ascii) (rest : string)
  (st : bool) (env : captures) (k : bool -> string -> captures -> option A) :
  is_digit m1 = true -> is_digit m2 = true ->
  rmatch (Seq re_m (Seq (Chr ".") R)) st
    (String m1 (String m2 (String "." rest))) env k
  = if (1 <=? two m1 m2) && (two m1 m2 <=? 12)
    then rmatch R false rest (("m", String m1 (String m2 "")) :: env) k
    else None.
Proof.
  intros H1 H2. unfold re_m. rewrite rmatch_seq, rmatch_group.
  apply is_digit_cases in H1, H2. cbn in H1, H2.
  repeat (destruct H1 as [<-|H1]; [|]); try contradiction;
    repeat (destruct H2 as [<-|H2]; [|]); try contradiction;
    cbn -[consumed]; rewrite ?consumed2; try reflexivity;
    match goal with |- context [rmatch R ?a ?b ?c ?d] =>
      now destruct (rmatch R a b c d) end.
Qed.

(** The year group: any four digits. *)
Lemma rmatch_year {A : Type} (y1 y2 y3 y4 : ascii) (rest : string)
  (st : bool) (env : captures) (k : bool -> string -> captures -> option A) :
  is_digit y1 = true -> is_digit y2 = true ->
  is_digit y3 = true -> is_digit y4 = true ->
  rmatch re_Y st (String y1 (String y2 (String y3 (String y4 rest)))) env k
  = k false rest (("Y", String y1 (String y2 (String y3 (String y4 "")))) :: env).
Proof.
  intros H1 H2 H3 H4. unfold re_Y. rewrite rmatch_group.
  cbn -[consumed is_digit]. rewrite H1, H2, H3, H4.
  now rewrite consumed4.
Qed.

Lemma py_int_two (c1 c2 : ascii) :
  is_digit c1 = true -> is_digit c2 = true ->
  py_int (String c1 (String c2 "")) = Some (two c1 c2).
Proof.
  intros H1 H2. cbn [py_int]. rewrite (is_digit_not_blank _ H1).
  cbn [int_digits]. rewrite H1, H2. unfold two. f_equal; lia.
Qed.

Lemma py_int_four (c1 c2 c3 c4 : ascii) :
  is_digit c1 = true -> is_digit c2 = true ->
  is_digit c3 = true -> is_digit c4 = true ->
  py_int (String c1 (String c2 (String c3 (String c4 ""))))
  = Some (four c1 c2 c3 c4).
Proof.
  intros H1 H2 H3 H4. cbn [py_int]. rewrite (is_digit_not_blank _ H1).
  cbn [int_digits]. rewrite H1, H2, H3, H4. unfold four. f_equal; lia.
Qed.

Lemma shape_ok_inv (d1 d2 p1 m1 m2 p2 y1 y2 y3 y4 : ascii) :
  shape_ok d1 d2 p1 m1 m2 p2 y1 y2 y3 y4 = true ->
  (is_digit d1 = true /\ is_digit d2 = true /\ p1 = "."%char)
  /\ (is_digit m1 = true /\ is_digit m2 = true /\ p2 = "."%char)
  /\ (is_digit y1 = true /\ is_digit y2 = true
      /\ is_digit y3 = true /\ is_digit y4 = true).
Proof.
  unfold shape_ok. rewrite !andb_true_iff, !Ascii.eqb_eq. tauto.
Qed.

(** [strptime] on ten characters of the shape DD.MM.YYYY followed by
    anything. *)
Lemma strptime_shape (d1 d2 p1 m1 m2 p2 y1 y2 y3 y4 : ascii) (tail : string) :
  shape_ok d1 d2 p1 m1 m2 p2 y1 y2 y3 y4 = true ->
  let s := String d1 (String d2 (String p1 (String m1 (String m2 (String p2
             (String y1 (String y2 (String y3 (String y4 tail))))))))) in
  strptime_dmY s
  = if (1 <=? two d1 d2) && (two d1 d2 <=? 31)
       && (1 <=? two m1 m2) && (two m1 m2 <=? 12)
    then match tail with
         | EmptyString =>
             datetime_new (four y1 y2 y3 y4) (two m1 m2) (two d1 d2) 0 0 0 0
         | String _ _ => Raise (DateError (Unconverted tail))
         end
    else Raise (DateError (NoMatch s)).
Proof.
  intros H s. apply shape_ok_inv in H
    as ((Hd1 & Hd2 & ->) & (Hm1 & Hm2 & ->) & (Hy1 & Hy2 & Hy3 & Hy4)).
  unfold strptime_dmY, re_match, re_dmY. subst s. cbn [seq_of].
  rewrite rmatch_day by assumption.
  destruct ((1 <=? two d1 d2) && (two d1 d2 <=? 31)); cbn [andb]; [|reflexivity].
  rewrite rmatch_month by assumption.
  destruct ((1 <=? two m1 m2) && (two m1 m2 <=? 12)); cbn [andb]; [|reflexivity].
  rewrite rmatch_year by assumption.
  destruct tail; [|reflexivity].
  unfold group_int. cbn [lookup String.eqb Ascii.eqb Bool.eqb].
  cbn -[py_int two four datetime_new].
  now rewrite py_int_four, !py_int_two by assumption.
Qed.

Ltac split_tests :=
  repeat (match goal with
          | |- context [is_digit ?c] => destruct (is_digit c)
          | |- context [Ascii.eqb ?a ?b] => destruct (Ascii.eqb a b)
          end; cbn; try reflexivity).

(** The shape check: ten characters DD.MM.YYYY, then the end as [$] sees
    it. *)
Lemma birthday_validate_shape (s : string) :
  Birthday.validate s
  = match after_shape s with Some rest => at_end rest | None => false end.
Proof.
  unfold Birthday.validate, re_match, Birthday.pattern, after_shape, shape_ok.
  do 10 (destruct s as [|? s]; [cbn; try reflexivity; split_tests|]).
  cbn. split_tests.
  destruct s as [|x [|x0 r]]; cbn; try reflexivity.
  split_tests.
Qed.

Lemma gregorian_leap_is_leap (y : Z) : gregorian_leap y = is_leap y.
Proof.
  unfold gregorian_leap, is_leap.
  destruct (Z.eqb_spec (y mod 4) 0), (Z.eqb_spec (y mod 100) 0),
    (Z.eqb_spec (y mod 400) 0); cbn; try reflexivity;
    exfalso; Z.div_mod_to_equations; lia.
Qed.

Lemma month_length_days_in_month (y m : Z) :
  1 <= m <= 12 -> month_length y m = days_in_month y m.
Proof.
  intros Hm. unfold month_length, days_in_month.
  rewrite gregorian_leap_is_leap.
  assert (Hc : m = 1 \/ m = 2 \/ m = 3 \/ m = 4 \/ m = 5 \/ m = 6 \/ m = 7
               \/ m = 8 \/ m = 9 \/ m = 10 \/ m = 11 \/ m = 12) by lia.
  repeat (destruct Hc as [->|Hc]; [cbn; now destruct (is_leap y)|]).
  subst m. cbn. now destruct (is_leap y).
Qed.

Lemma four_range (c1 c2 c3 c4 : ascii) :
  is_digit c1 = true -> is_digit c2 = true ->
  is_digit c3 = true -> is_digit c4 = true ->
  0 <= four c1 c2 c3 c4 <= 9999.
Proof.
  intros H1 H2 H3 H4. unfold four.
  apply digit_val_range in H1, H2, H3, H4. lia.
Qed.

(** The constructor accepts midnight of exactly the real dates. *)
Lemma datetime_new_real (d m y : Z) :
  y <= 9999 ->
  datetime_new y m d 0 0 0 0
  = if real_date (d, m, y) then Ok (mk_datetime y m d 0 0 0 0)
    else Raise (DateError (date_fault d m y)).
Proof.
  intros Hy. unfold real_date, date_fault, datetime_new, check_date_fields,
    MINYEAR, MAXYEAR.
  destruct (Z.leb_spec 1 y) as [Hy1|Hy1]; cbn [andb negb]; [|reflexivity].
  destruct (Z.leb_spec y 9999); [|lia]. cbn [andb negb].
  destruct (Z.leb_spec 1 m) as [Hm1|Hm1]; cbn [andb negb]; [|reflexivity].
  destruct (Z.leb_spec m 12) as [Hm2|Hm2]; cbn [andb negb]; [|reflexivity].
  rewrite month_length_days_in_month by lia.
  destruct ((1 <=? d) && (d <=? days_in_month y m)); reflexivity.
Qed.

Lemma month_length_le_31 (y m : Z) : month_length y m <= 31.
Proof.
  unfold month_length.
  destruct m as [|p|p]; [lia| |lia].
  repeat (destruct p as [p|p|]; try lia); destruct (gregorian_leap y); lia.
Qed.

Lemma real_date_in_regex (d m y : Z) :
  real_date (d, m, y) = true ->
  (1 <=? d) && (d <=? 31) && (1 <=? m) && (m <=? 12) = true.
Proof.
  unfold real_date. rewrite !andb_true_iff, !Z.leb_le.
  pose proof (month_length_le_31 y m). lia.
Qed.

(** What the constructor does, by the three cases of the specification. *)
Lemma birthday_init_cases (s : string) :
  match Birthday.init s with
  | Ok b =>
      Birthday.validate s = true /\ names_real_date s = true
      /\ value b = date_of s
  | Raise BirthdayFormat => Birthday.validate s = false
  | Raise (DateError _) =>
      Birthday.validate s = true /\ names_real_date s = false
  | Raise _ => False
  end.
Proof.
  unfold Birthday.init. destruct (Birthday.validate s) eqn:Hv; cbn [negb];
    [|reflexivity].
  rewrite birthday_validate_shape in Hv. unfold after_shape in Hv.
  do 10 (destruct s as [|? s]; [discriminate Hv|]).
  destruct (shape_ok a a0 a1 a2 a3 a4 a5 a6 a7 a8) eqn:Hs; [|discriminate Hv].
  rewrite (strptime_shape _ _ _ _ _ _ _ _ _ _ s Hs).
  unfold names_real_date, date_of.
  apply at_end_cases in Hv as [-> | ->].
  - cbn [dmY_fields]. rewrite Hs.
    pose proof (shape_ok_inv _ _ _ _ _ _ _ _ _ _ Hs)
      as (_ & _ & (Hy1 & Hy2 & Hy3 & Hy4)).
    pose proof (four_range _ _ _ _ Hy1 Hy2 Hy3 Hy4) as Hy.
    destruct (real_date (two a a0, two a2 a3, four a5 a6 a7 a8)) eqn:Hr.
    + rewrite (real_date_in_regex _ _ _ Hr).
      rewrite datetime_new_real, Hr by lia. cbn. auto.
    + destruct ((1 <=? two a a0) && (two a a0 <=? 31)
                && (1 <=? two a2 a3) && (two a2 a3 <=? 12)); cbn [bind].
      * rewrite datetime_new_real, Hr by lia. cbn. auto.
      * auto.
  - cbn [dmY_fields NL].
    destruct ((1 <=? two a a0) && (two a a0 <=? 31)
              && (1 <=? two a2 a3) && (two a2 a3 <=? 12)); cbn; auto.
Qed.

Lemma birthday_validate_spec (s : string) :
  Birthday.validate s = true <->
  exists body, dmY_shape body = true /\ (s = body \/ s = body ++ NL).
Proof.
  rewrite birthday_validate_shape. unfold dmY_shape. split.
  - unfold after_shape.
    do 10 (destruct s as [|? s]; [discriminate|]).
    destruct (shape_ok a a0 a1 a2 a3 a4 a5 a6 a7 a8) eqn:Hs; [|discriminate].
    intros He.
    exists (String a (String a0 (String a1 (String a2 (String a3 (String a4
             (String a5 (String a6 (String a7 (String a8 "")))))))))).
    cbn [dmY_fields]. rewrite Hs. split; [reflexivity|].
    apply at_end_cases in He as [-> | ->]; [now left | now right].
  - intros (body & Hb & Hs). unfold dmY_fields in Hb.
    do 10 (destruct body as [|? body]; [discriminate|]).
    destruct body; [|discriminate].
    destruct (shape_ok a a0 a1 a2 a3 a4 a5 a6 a7 a8) eqn:Hk; [|discriminate].
    destruct Hs as [-> | ->]; cbn [after_shape append]; rewrite Hk; reflexivity.
Qed.

(** What [Birthday] construction does: it raises the format error exactly
    when the shape check [^\d{2}\.\d{2}\.\d{4}$] rejects; the check accepts
    the strings of the exact shape DD.MM.YYYY and those followed by one line
    feed.  When the check accepts, construction raises an error of date
    parsing unless the string has the exact shape and names a real date, and
    then it succeeds with that date.  The five dates of the specification
    behave as it says. *)
Lemma birthday_construction_cases (s : string) :
  match Birthday.init s with
  | Ok b =>
      Birthday.validate s = true /\ names_real_date s = true
      /\ value b = date_of s
  | Raise BirthdayFormat => Birthday.validate s = false
  | Raise (DateError _) =>
      Birthday.validate s = true /\ names_real_date s = false
  | Raise _ => False
  end
  /\ (Birthday.validate s = true <->
      exists body, dmY_shape body = true /\ (s = body \/ s = body ++ NL))
  /\ Birthday.init "31.02.2020" = Raise (DateError DayRange)
  /\ Birthday.init "00.01.2020" = Raise (DateError (NoMatch "00.01.2020"))
  /\ Birthday.init "10.13.2020" = Raise (DateError (NoMatch "10.13.2020"))
  /\ Birthday.init "29.02.2021" = Raise (DateError DayRange)
  /\ Birthday.init "29.02.2020" = Ok (mk_Field (mk_datetime 2020 2 29 0 0 0 0)).
Proof.
  split; [apply birthday_init_cases|].
  split; [apply birthday_validate_spec|].
  repeat split; reflexivity.
Qed.

(** C4 fails on the code for a date followed by a line feed: the string has
    not the shape DD.MM.YYYY, yet the shape check accepts it and the error
    comes from date parsing, not the format error; the groups the shape regex
    matches form a real date, and construction does not succeed either. *)
Theorem C4_trailing_newline_not_format_error :
  let s := "29.02.2020" ++ NL in
  dmY_shape s = false
  /\ Birthday.init s <> Raise BirthdayFormat
  /\ Birthday.validate s = true
  /\ after_shape s = Some NL
  /\ names_real_date "29.02.2020" = true
  /\ Birthday.init s = Raise (DateError (Unconverted NL)).
Proof.
  cbv zeta. repeat split; try reflexivity. discriminate.
Qed.

(* ------------------------------------------------------------------------- *)
(** ** Formatting a parsed birthday *)

Lemma zfill2_two (c1 c2 : ascii) :
  is_digit c1 = true -> is_digit c2 = true ->
  zfill 2 (two c1 c2) = String c1 (String c2 "").
Proof.
  intros H1 H2. apply is_digit_cases in H1, H2. cbn in H1, H2.
  repeat (destruct H1 as [<-|H1]; [|]); try contradiction;
    repeat (destruct H2 as [<-|H2]; [|]); try contradiction; reflexivity.
Qed.

(** A year of four digits prints as its four digits. *)
Lemma str_int_four_digits (n : Z) :
  1000 <= n <= 9999 ->
  str_int n
  = String (digit_char (n / 1000)) (String (digit_char (n / 100 mod 10))
      (String (digit_char (n / 10 mod 10)) (String (digit_char (n mod 10)) ""))).
Proof.
  intros Hn. unfold str_int.
  destruct (Z.ltb_spec n 0); [lia|].
  destruct (Z.to_nat n) as [|[|[|f]]] eqn:Hf; try lia.
  cbn [digits_of].
  destruct (Z.ltb_spec n 10); [lia|].
  destruct (Z.ltb_spec (n / 10) 10); [exfalso; Z.div_mod_to_equations; lia|].
  destruct (Z.ltb_spec (n / 10 / 10) 10); [exfalso; Z.div_mod_to_equations; lia|].
  destruct (Z.ltb_spec (n / 10 / 10 / 10) 10);
    [|exfalso; Z.div_mod_to_equations; lia].
  assert (E1 : n / 10 / 10 / 10 mod 10 = n / 1000)
    by (Z.div_mod_to_equations; lia).
  assert (E2 : n / 10 / 10 mod 10 = n / 100 mod 10)
    by (Z.div_mod_to_equations; lia).
  now rewrite E1, E2.
Qed.

Lemma str_int_four (c1 c2 c3 c4 : ascii) :
  is_digit c1 = true -> is_digit c2 = true ->
  is_digit c3 = true -> is_digit c4 = true ->
  1000 <= four c1 c2 c3 c4 ->
  str_int (four c1 c2 c3 c4)
  = String c1 (String c2 (String c3 (String c4 ""))).
Proof.
  intros H1 H2 H3 H4 Hy.
  pose proof (four_range _ _ _ _ H1 H2 H3 H4) as Hr.
  rewrite str_int_four_digits by lia.
  pose proof (digit_val_range _ H1) as R1.
  pose proof (digit_val_range _ H2) as R2.
  pose proof (digit_val_range _ H3) as R3.
  pose proof (digit_val_range _ H4) as R4.
  assert (E1 : four c1 c2 c3 c4 / 1000 = digit_val c1)
    by (unfold four; Z.div_mod_to_equations; lia).
  assert (E2 : four c1 c2 c3 c4 / 100 mod 10 = digit_val c2)
    by (unfold four; Z.div_mod_to_equations; lia).
  assert (E3 : four c1 c2 c3 c4 / 10 mod 10 = digit_val c3)
    by (unfold four; Z.div_mod_to_equations; lia).
  assert (E4 : four c1 c2 c3 c4 mod 10 = digit_val c4)
    by (unfold four; Z.div_mod_to_equations; lia).
  now rewrite E1, E2, E3, E4, !digit_char_val by assumption.
Qed.

Lemma strftime_dmY_date_of (s : string) :
  names_real_date s = true -> 1000 <= year (date_of s) ->
  strftime_dmY (date_of s) = s.
Proof.
  unfold names_real_date, date_of, dmY_fields.
  do 10 (destruct s as [|? s]; [discriminate|]).
  destruct s; [|discriminate].
  destruct (shape_ok a a0 a1 a2 a3 a4 a5 a6 a7 a8) eqn:Hs; [|discriminate].
  intros _ Hy. cbn [year] in Hy.
  apply shape_ok_inv in Hs
    as ((Hd1 & Hd2 & ->) & (Hm1 & Hm2 & ->) & (Hy1 & Hy2 & Hy3 & Hy4)).
  unfold strftime_dmY, fmt_d, fmt_m, fmt_Y. cbn [year month day].
  rewrite !zfill2_two, str_int_four by assumption. reflexivity.
Qed.

Lemma dict_get_setitem {V : Type} (d : list (string * V)) (k : string) (v : V) :
  dict_get (dict_setitem d k v) k = Some v.
Proof.
  induction d as [|[k' w] d IH]; cbn.
  - now rewrite String.eqb_refl.
  - destruct (String.eqb k' k) eqn:E; cbn; rewrite E; [reflexivity|exact IH].
Qed.

(** From the year 1000 on the round trip holds: for a string DD.MM.YYYY
    that names a real date with such a year, parsing it into a [Birthday]
    and formatting the stored date as [show_birthday] does gives the string
    back; and so does the handler pair add-birthday / show-birthday on any
    contact of the book. *)
Lemma birthday_round_trip (s : string) :
  names_real_date s = true -> 1000 <= year (date_of s) ->
  exists b : Birthday.t,
    Birthday.init s = Ok b /\ strftime_dmY (value b) = s
    /\ forall (book : AddressBook.t) (nm : string) (r : Record_.t),
         AddressBook.find book nm = Some r ->
         show_birthday (fst (add_birthday book nm s)) nm
         = "Birthday for " ++ nm ++ " is " ++ s.
Proof.
  intros Hr Hy.
  pose proof (birthday_init_cases s) as Hc.
  destruct (Birthday.init s) as [b|e] eqn:Hi.
  - destruct Hc as (_ & _ & Hb). exists b. split; [reflexivity|].
    assert (Hf : strftime_dmY (value b) = s)
      by (rewrite Hb; now apply strftime_dmY_date_of).
    split; [exact Hf|].
    intros book nm r Hfind.
    unfold add_birthday, Func.add_birthday, decorated, dict_getitem.
    unfold AddressBook.find in Hfind. unfold AddressBook.find at 1.
    rewrite Hfind. cbn [bind]. unfold Record_.add_birthday. rewrite Hi.
    cbn [bind fst]. unfold show_birthday, Func.show_birthday, AddressBook.find,
      dict_getitem.
    rewrite dict_get_setitem. cbn [bind Record_.birthday input_error].
    now rewrite Hf.
  - destruct e as [| |why| | | | |]; try contradiction.
    + exfalso. unfold names_real_date in Hr.
      assert (Hv : Birthday.validate s = true).
      { apply birthday_validate_spec. exists s. unfold dmY_shape.
        destruct (dmY_fields s); [auto|discriminate]. }
      congruence.
    + destruct Hc as [_ Hc]. congruence.
Qed.

(** C7 fails on the code below the year 1000: the year is printed without
    its leading zeros, so 02.01.0999, a real date, comes back from
    add-birthday / show-birthday as 02.01.999. *)
Theorem C7_year_below_1000 :
  let book := fst (add_contact [] "Ann" "1111111111") in
  names_real_date "02.01.0999" = true
  /\ Birthday.init "02.01.0999" = Ok (mk_Field (mk_datetime 999 1 2 0 0 0 0))
  /\ strftime_dmY (mk_datetime 999 1 2 0 0 0 0) = "02.01.999"
  /\ strftime_dmY (mk_datetime 999 1 2 0 0 0 0) <> "02.01.0999"
  /\ show_birthday (fst (add_birthday book "Ann" "02.01.0999")) "Ann"
     = "Birthday for Ann is 02.01.999".
Proof.
  cbv zeta. repeat split; try reflexivity. discriminate.
Qed.

(* ------------------------------------------------------------------------- *)
(** ** Editing a phone *)

Lemma edit_loop_absent (ps : list Phone.t) (old_phone new_phone : string) :
  ~ In old_phone (map value ps) ->
  Record_.edit_loop ps old_phone new_phone = None.
Proof.
  induction ps as [|p ps IH]; cbn; intros Hn; [reflexivity|].
  destruct (String.eqb_spec (value p) old_phone) as [E|E].
  - exfalso. apply Hn. now left.
  - rewrite IH; [reflexivity|]. intros Hin. apply Hn. now right.
Qed.

Lemma edit_loop_first (ps : list Phone.t) (old_phone new_phone : string) :
  In old_phone (map value ps) ->
  exists (pre : list Phone.t) (p : Phone.t) (post : list Phone.t),
    ps = (pre ++ p :: post)%list
    /\ value p = old_phone
    /\ ~ In old_phone (map value pre)
    /\ Record_.edit_loop ps old_phone new_phone
       = Some (pre ++ mk_Field new_phone :: post)%list.
Proof.
  induction ps as [|p ps IH]; cbn; intros Hin; [contradiction|].
  destruct (String.eqb_spec (value p) old_phone) as [E|E].
  - exists [], p, ps. cbn. auto.
  - destruct Hin as [Hin|Hin]; [contradiction|].
    destruct (IH Hin) as (pre & q & post & -> & Hq & Hpre & ->).
    exists (p :: pre), q, post. cbn. repeat split; auto.
    intros [H|H]; [contradiction|now apply Hpre].
Qed.

(** C8: editing a phone the record does not hold raises the not-found
    error; when the record holds it, the first entry equal to the old value
    gets the new value and every other entry, later duplicates included,
    stays as it was; the change handler on a name absent from the book
    raises the unknown-contact error and leaves the book as it was. *)
Theorem C8_edit_phone (r : Record_.t) (old_phone new_phone : string) :
  (~ In old_phone (map value (Record_.phones r)) ->
   Record_.edit_phone r old_phone new_phone = Raise PhoneNotFound)
  /\ (In old_phone (map value (Record_.phones r)) ->
      exists (pre : list Phone.t) (p : Phone.t) (post : list Phone.t),
        Record_.phones r = (pre ++ p :: post)%list
        /\ value p = old_phone
        /\ ~ In old_phone (map value pre)
        /\ Record_.edit_phone r old_phone new_phone
           = Ok (Record_.mk (Record_.name r)
                   (pre ++ mk_Field new_phone :: post) (Record_.birthday r)))
  /\ (forall (book : AddressBook.t) (nm : string),
        AddressBook.find book nm = None ->
        Func.edit_contact_phone book nm old_phone new_phone
        = Raise (ContactNotFound nm)
        /\ edit_contact_phone book nm old_phone new_phone
           = (book, "Error: " ++ repr ("Contact " ++ nm ++ " does not exist"))).
Proof.
  repeat split.
  - intros Hn. unfold Record_.edit_phone. now rewrite edit_loop_absent.
  - intros Hin.
    destruct (edit_loop_first _ _ new_phone Hin)
      as (pre & p & post & Hps & Hp & Hpre & He).
    exists pre, p, post. unfold Record_.edit_phone. rewrite He. auto.
  - unfold Func.edit_contact_phone. now rewrite H.
  - unfold edit_contact_phone, Func.edit_contact_phone. now rewrite H.
Qed.

(** Witness for C8: a record with a duplicated phone, and the empty book. *)
Lemma C8_edit_phone_witness :
  let r := Record_.mk (mk_Field "Ann")
             [mk_Field "1111111111"; mk_Field "2222222222";
              mk_Field "1111111111"] None in
  Record_.edit_phone r "3333333333" "4444444444" = Raise PhoneNotFound
  /\ (exists (pre : list Phone.t) (p : Phone.t) (post : list Phone.t),
        Record_.phones r = (pre ++ p :: post)%list
        /\ value p = "1111111111"
        /\ ~ In "1111111111" (map value pre)
        /\ Record_.edit_phone r "1111111111" "4444444444"
           = Ok (Record_.mk (Record_.name r)
                   (pre ++ mk_Field "4444444444" :: post) (Record_.birthday r)))
  /\ edit_contact_phone [] "Bob" "1111111111" "4444444444"
     = ([], "Error: 'Contact Bob does not exist'").
Proof.
  cbv zeta.
  set (r := Record_.mk (mk_Field "Ann")
              [mk_Field "1111111111"; mk_Field "2222222222";
               mk_Field "1111111111"] None).
  split; [|split].
  - apply (C8_edit_phone r "3333333333" "4444444444").
    cbn. intros [H|[H|[H|[]]]]; discriminate H.
  - apply (C8_edit_phone r "1111111111" "4444444444"). cbn. auto.
  - apply (C8_edit_phone r "1111111111" "4444444444"). reflexivity.
Defined.

(** C1 fails on the code: [edit_phone] assigns the new value without
    validating it, while [add_phone] validates.  After [add Ann 1111111111],
    [change Ann 1111111111 abc] succeeds and the record holds ["abc"], which
    validation rejects and [add_phone] refuses. *)
Theorem C1_edit_phone_stores_unvalidated :
  let book := fst (add_contact [] "Ann" "1111111111") in
  Phone.validate "abc" = false
  /\ edit_contact_phone book "Ann" "1111111111" "abc"
     = ([("Ann", Record_.mk (mk_Field "Ann") [mk_Field "abc"] None)],
        "Contact Ann has been changedphone number from 1111111111 to phone number abc")
  /\ add_contact book "Ann" "abc"
     = (book, "Error: Phone number must contain 10 digits").
Proof.
  repeat split; reflexivity.
Qed.

(** C2 fails on the code: [Record.__str__] prints the stored datetime with
    its default rendering, not as DD.MM.YYYY ([show_birthday] formats it).
    The rest of the rendering is as the claim says. *)
Theorem C2_record_str_prints_datetime :
  let book0 := fst (add_contact [] "Ann" "1111111111") in
  let book1 := fst (add_contact book0 "Ann" "2222222222") in
  let book := fst (add_birthday book1 "Ann" "29.02.2020") in
  show_all book
  = "Contact name: Ann, phones: 1111111111; 2222222222, birthday: 2020-02-29 00:00:00"
    ++ NL
  /\ show_birthday book "Ann" = "Birthday for Ann is 29.02.2020"
  /\ show_all book1
     = "Contact name: Ann, phones: 1111111111; 2222222222, birthday: No info"
       ++ NL
  /\ (forall (nm : Name) (ps : list Phone.t),
        Record_.str (Record_.mk nm ps None)
        = "Contact name: " ++ value nm ++ ", phones: "
          ++ join "; " (map value ps) ++ ", birthday: " ++ "No info").
Proof.
  repeat split; reflexivity.
Qed.

(* ------------------------------------------------------------------------- *)
(** ** The handlers *)

(** C9: every decorated handler returns a string, whatever the book and the
    arguments: the string of the undecorated handler when it returns, and
    otherwise the rendering of the exception, "Error: " or "An unexpected
    error occurred: " followed by its message; a raise leaves the book as it
    was. *)
Theorem C9_handlers_return_strings (c : command) (book : AddressBook.t)
  (today : datetime) :
  match func c book today with
  | Ok (book', s) => handle c book today = (book', s)
  | Raise e =>
      fst (handle c book today) = book
      /\ (snd (handle c book today) = "Error: " ++ str_exn e
          \/ snd (handle c book today)
             = "An unexpected error occurred: " ++ str_exn e)
  end.
Proof.
  destruct c; cbn [func handle];
    unfold add_contact, edit_contact_phone, show_phones, show_all,
      add_birthday, show_birthday, birthdays, decorated, input_error;
    match goal with
    | |- context [bind ?f _] => destruct f as [s|e]; cbn [bind]
    | |- match ?f with _ => _ end => destruct f as [[book' s]|e]
    end; try reflexivity;
    (split; [reflexivity|]); cbn [snd]; destruct (class_of e); auto.
Qed.

Lemma forall_setitem {V : Type} (P : V -> Prop) (d : list (string * V))
  (k : string) (v : V) :
  Forall P (dict_values d) -> P v -> Forall P (dict_values (dict_setitem d k v)).
Proof.
  intros Hd Hv. induction d as [|[k' w] d IH]; cbn.
  - constructor; [exact Hv|constructor].
  - cbn in Hd. inversion Hd as [|? ? Hw Hrest]; subst.
    destruct (String.eqb k' k); cbn; constructor; auto.
Qed.

Lemma dict_get_in {V : Type} (d : list (string * V)) (k : string) (v : V) :
  dict_get d k = Some v -> In v (dict_values d).
Proof.
  induction d as [|[k' w] d IH]; cbn; [discriminate|].
  destruct (String.eqb k' k); [intros [= ->]; now left|auto].
Qed.

Lemma edit_loop_nonempty (ps ps' : list Phone.t) (old_phone new_phone : string) :
  Record_.edit_loop ps old_phone new_phone = Some ps' -> ps' <> [].
Proof.
  destruct ps as [|p ps]; cbn; [discriminate|].
  destruct (String.eqb (value p) old_phone).
  - intros [= <-]. discriminate.
  - destruct (Record_.edit_loop ps old_phone new_phone); [|discriminate].
    intros [= <-]. discriminate.
Qed.

Lemma handle_keeps_phones (c : command) (book : AddressBook.t)
  (today : datetime) :
  Forall has_phone (dict_values book) ->
  Forall has_phone (dict_values (fst (handle c book today))).
Proof.
  intros Hb. destruct c; cbn [handle fst]; try exact Hb.
  - (* add *)
    unfold add_contact, Func.add_contact, AddressBook.find, dict_getitem.
    destruct (dict_get book nm) as [r|] eqn:Hg; cbn [bind].
    + unfold Record_.add_phone, Phone.init.
      destruct (Phone.validate phone); cbn; [|exact Hb].
      apply forall_setitem; [exact Hb|].
      unfold has_phone. cbn. now destruct (Record_.phones r).
    + unfold Record_.init, Record_.add_phone, Phone.init.
      destruct (Phone.validate phone); cbn; [|exact Hb].
      apply forall_setitem; [exact Hb|]. unfold has_phone. cbn. discriminate.
  - (* change *)
    unfold edit_contact_phone, Func.edit_contact_phone, AddressBook.find,
      dict_getitem.
    destruct (dict_get book nm) as [r|] eqn:Hg; cbn [bind]; [|exact Hb].
    unfold Record_.edit_phone.
    destruct (Record_.edit_loop (Record_.phones r) old_phone new_phone)
      as [ps|] eqn:He; cbn; [|exact Hb].
    apply forall_setitem; [exact Hb|]. unfold has_phone. cbn.
    eapply edit_loop_nonempty, He.
  - (* add-birthday *)
    unfold add_birthday, Func.add_birthday, AddressBook.find, dict_getitem.
    destruct (dict_get book nm) as [r|] eqn:Hg; cbn [bind]; [|exact Hb].
    unfold Record_.add_birthday.
    destruct (Birthday.init bday) as [b|e]; cbn; [|exact Hb].
    apply forall_setitem; [exact Hb|]. unfold has_phone. cbn.
    apply dict_get_in in Hg.
    rewrite Forall_forall in Hb. exact (Hb r Hg).
Qed.

(** C10: in every book the handlers can build from the empty book, every
    record has at least one phone. *)
Theorem C10_phones_never_empty (book : AddressBook.t) :
  reachable book ->
  Forall (fun r => Record_.phones r <> []) (dict_values book).
Proof.
  intros Hr. induction Hr as [|book c today Hr IH].
  - constructor.
  - now apply handle_keeps_phones.
Qed.

(** Witness for C10: the book after [add Ann 1111111111],
    [change Ann 1111111111 2222222222] and [add-birthday Ann 29.02.2020]. *)
Lemma C10_phones_never_empty_witness :
  Forall (fun r => Record_.phones r <> [])
    (dict_values
       [("Ann", Record_.mk (mk_Field "Ann") [mk_Field "2222222222"]
                  (Some (mk_Field (mk_datetime 2020 2 29 0 0 0 0))))]).
Proof.
  apply (C10_phones_never_empty
           [("Ann", Record_.mk (mk_Field "Ann") [mk_Field "2222222222"]
                      (Some (mk_Field (mk_datetime 2020 2 29 0 0 0 0))))]).
  pose (today := mk_datetime 2024 6 10 10 30 0 0).
  change (reachable
            (fst (handle (AddBirthday "Ann" "29.02.2020")
               (fst (handle (Change "Ann" "1111111111" "2222222222")
                  (fst (handle (Add "Ann" "1111111111") [] today)) today))
               today))).
  repeat apply reach_step. apply reach_empty.
Defined.

(* ------------------------------------------------------------------------- *)
(** ** Ordinals and dates *)

Lemma month_day_table (leapyear : bool) :
  forallb (month_day_check leapyear) (seq 0 365) = true.
Proof. destruct leapyear; vm_compute; reflexivity. Qed.

Lemma month_day_ok (leapyear : bool) (n : Z) :
  0 <= n < 365 ->
  let '(m, d) := month_day leapyear n in
  1 <= m <= 12
  /\ nth (Z.to_nat m) DAYS_BEFORE_MONTH 0
     + (if (2 <? m) && leapyear then 1 else 0) + d = n + 1.
Proof.
  intros Hn.
  pose proof (month_day_table leapyear) as Ht.
  rewrite forallb_forall in Ht.
  specialize (Ht (Z.to_nat n)).
  assert (Hin : In (Z.to_nat n) (seq 0 365)) by (apply in_seq; lia).
  specialize (Ht Hin). unfold month_day_check in Ht.
  rewrite Z2Nat.id in Ht by lia.
  destruct (month_day leapyear n) as [m d].
  rewrite !andb_true_iff, !Z.leb_le, Z.eqb_eq in Ht. lia.
Qed.

Lemma days_before_year_split (a b c e : Z) :
  0 <= a -> 0 <= b <= 3 -> 0 <= c <= 24 -> 0 <= e <= 3 ->
  days_before_year (400 * a + 100 * b + 4 * c + e + 1)
  = 146097 * a + 36524 * b + 1461 * c + 365 * e.
Proof.
  intros Ha Hb Hc He. unfold days_before_year.
  Z.div_mod_to_equations. lia.
Qed.

Lemma is_leap_split (a b c e : Z) :
  0 <= a -> 0 <= b <= 3 -> 0 <= c <= 24 -> 0 <= e <= 3 ->
  is_leap (400 * a + 100 * b + 4 * c + e + 1)
  = (e =? 3) && (negb (c =? 24) || (b =? 3)).
Proof.
  intros Ha Hb Hc He. unfold is_leap.
  destruct (Z.eqb_spec ((400 * a + 100 * b + 4 * c + e + 1) mod 4) 0),
    (Z.eqb_spec ((400 * a + 100 * b + 4 * c + e + 1) mod 100) 0),
    (Z.eqb_spec ((400 * a + 100 * b + 4 * c + e + 1) mod 400) 0),
    (Z.eqb_spec e 3), (Z.eqb_spec c 24), (Z.eqb_spec b 3);
    cbn; try reflexivity; exfalso; Z.div_mod_to_equations; lia.
Qed.

Lemma ord2ymd_eq (ordinal : Z) :
  ord2ymd ordinal
  = let n0 := ordinal - 1 in
    let a := n0 / 146097 in
    let r1 := n0 mod 146097 in
    let b := r1 / 36524 in
    let r2 := r1 mod 36524 in
    let c := r2 / 1461 in
    let r3 := r2 mod 1461 in
    let e := r3 / 365 in
    let r4 := r3 mod 365 in
    let y := a * 400 + 1 + b * 100 + c * 4 + e in
    if (e =? 4) || (b =? 4) then (y - 1, 12, 31)
    else
      let '(m, d) :=
        month_day ((e =? 3) && (negb (c =? 24) || (b =? 3))) r4 in
      (y, m, d).
Proof.
  unfold ord2ymd, month_day, DI400Y, DI100Y, DI4Y. cbv zeta.
  match goal with |- (if ?t then _ else _) = _ => destruct t end;
    [reflexivity|].
  match goal with |- (if ?t then _ else _) = _ => destruct t end;
    reflexivity.
Qed.

Lemma ymd2ord_ord2ymd (n : Z) :
  1 <= n <= MAXORDINAL ->
  let '(y, m, d) := ord2ymd n in ymd2ord y m d = n.
Proof.
  unfold MAXORDINAL. intros Hn. rewrite ord2ymd_eq. cbv zeta.
  set (n0 := n - 1).
  set (a := n0 / 146097). set (r1 := n0 mod 146097).
  set (b := r1 / 36524). set (r2 := r1 mod 36524).
  set (c := r2 / 1461). set (r3 := r2 mod 1461).
  set (e := r3 / 365). set (r4 := r3 mod 365).
  assert (H1 : n0 = 146097 * a + r1 /\ 0 <= r1 < 146097)
    by (subst a r1; Z.div_mod_to_equations; lia).
  assert (H2 : r1 = 36524 * b + r2 /\ 0 <= r2 < 36524)
    by (subst b r2; Z.div_mod_to_equations; lia).
  assert (H3 : r2 = 1461 * c + r3 /\ 0 <= r3 < 1461)
    by (subst c r3; Z.div_mod_to_equations; lia).
  assert (H4 : r3 = 365 * e + r4 /\ 0 <= r4 < 365)
    by (subst e r4; Z.div_mod_to_equations; lia).
  assert (Hn0 : 0 <= n0 < 3652059 /\ n = n0 + 1) by (subst n0; lia).
  clearbody a r1 b r2 c r3 e r4 n0.
  assert (Ha : 0 <= a) by lia.
  assert (Hb : 0 <= b <= 4) by lia.
  assert (Hc : 0 <= c <= 24) by lia.
  assert (He : 0 <= e <= 4) by lia.
  destruct ((e =? 4) || (b =? 4)) eqn:Hsp.
  - (* the last day of a leap year *)
    assert (Hy : exists a' b' c', 0 <= a' /\ 0 <= b' <= 3 /\ 0 <= c' <= 24
                 /\ a * 400 + 1 + b * 100 + c * 4 + e - 1
                    = 400 * a' + 100 * b' + 4 * c' + 3 + 1
                 /\ n0 = 146097 * a' + 36524 * b' + 1461 * c' + 365 * 3 + 365
                 /\ (c' <> 24 \/ b' = 3)).
    { apply orb_true_iff in Hsp as [Hsp|Hsp]; apply Z.eqb_eq in Hsp.
      - exists a, b, c. lia.
      - exists a, 3, 24. lia. }
    destruct Hy as (a' & b' & c' & Ha' & Hb' & Hc' & -> & Hn0' & Hl).
    unfold ymd2ord, days_before_month.
    rewrite days_before_year_split, is_leap_split by lia.
    replace ((3 =? 3) && (negb (c' =? 24) || (b' =? 3))) with true.
    + change (nth (Z.to_nat 12) DAYS_BEFORE_MONTH 0) with 334.
      change ((2 <? 12) && true) with true. cbv iota. lia.
    + cbn. destruct (Z.eqb_spec c' 24), (Z.eqb_spec b' 3); cbn; try reflexivity. lia.
  - apply orb_false_iff in Hsp as [He4 Hb4]. apply Z.eqb_neq in He4, Hb4.
    assert (Hm := month_day_ok ((e =? 3) && (negb (c =? 24) || (b =? 3))) r4
                    ltac:(lia)).
    destruct (month_day ((e =? 3) && (negb (c =? 24) || (b =? 3))) r4)
      as [m d].
    destruct Hm as [Hm1 Hm2]. unfold ymd2ord, days_before_month.
    replace (a * 400 + 1 + b * 100 + c * 4 + e)
      with (400 * a + 100 * b + 4 * c + e + 1) by lia.
    rewrite days_before_year_split, is_leap_split by lia. lia.
Qed.

Lemma datetime_new_ok (y m d h mi s us : Z) (dt : datetime) :
  datetime_new y m d h mi s us = Ok dt ->
  dt = mk_datetime y m d h mi s us /\ time_ok dt.
Proof.
  unfold datetime_new, check_date_fields, check_time_fields.
  destruct (negb ((MINYEAR <=? y) && (y <=? MAXYEAR))); [discriminate|].
  destruct (negb ((1 <=? m) && (m <=? 12))); [discriminate|].
  destruct (negb ((1 <=? d) && (d <=? days_in_month y m))); [discriminate|].
  cbn [bind].
  destruct ((0 <=? h) && (h <=? 23)) eqn:Hh; [|discriminate].
  destruct ((0 <=? mi) && (mi <=? 59)) eqn:Hmi; [|discriminate].
  destruct ((0 <=? s) && (s <=? 59)) eqn:Hs; [|discriminate].
  destruct ((0 <=? us) && (us <=? 999999)) eqn:Hus; [|discriminate].
  cbn. intros [= <-]. split; [reflexivity|].
  unfold time_ok. cbn.
  rewrite andb_true_iff, !Z.leb_le in Hh, Hmi, Hs, Hus. lia.
Qed.

Lemma occurrence_time_ok (today : datetime) (b : Birthday.t) (occ : datetime) :
  AddressBook.occurrence today b = Ok occ -> time_ok occ.
Proof.
  unfold AddressBook.occurrence, replace_year.
  destruct (datetime_new (year today) _ _ _ _ _ _) as [d1|] eqn:H1;
    [|discriminate].
  cbn [bind]. apply datetime_new_ok in H1 as [_ Ht1].
  destruct (datetime_lt d1 today).
  - intros H2. now apply datetime_new_ok in H2.
  - now intros [= <-].
Qed.

(** Adding whole days moves the ordinal by as many. *)
Lemma add_days_ordinal (dt dt' : datetime) (n : Z) :
  time_ok dt -> datetime_add_days dt n = Ok dt' ->
  toordinal dt' = toordinal dt + n.
Proof.
  intros (Hh & Hmi & Hs & Hus). unfold datetime_add_days, timedelta_new.
  cbv zeta. cbn [days seconds microseconds].
  assert (E1 : microsecond dt / 1000000 = 0)
    by (Z.div_mod_to_equations; lia).
  assert (E2 : (day_seconds dt + microsecond dt / 1000000) / 86400 = 0)
    by (rewrite E1; unfold day_seconds; Z.div_mod_to_equations; lia).
  rewrite E2, Z.add_0_r.
  destruct ((0 <? toordinal dt + n) && (toordinal dt + n <=? MAXORDINAL))
    eqn:Hr; [|discriminate].
  apply andb_true_iff in Hr as [Hr1 Hr2].
  apply Z.ltb_lt in Hr1. apply Z.leb_le in Hr2.
  pose proof (ymd2ord_ord2ymd (toordinal dt + n) ltac:(lia)) as Ho.
  destruct (ord2ymd (toordinal dt + n)) as [[y m] d].
  intros [= <-]. exact Ho.
Qed.

Lemma weekday_add_days (dt dt' : datetime) (n : Z) :
  time_ok dt -> datetime_add_days dt n = Ok dt' ->
  weekday dt' = (weekday dt + n) mod 7.
Proof.
  intros Ht Ha. unfold weekday. rewrite (add_days_ordinal _ _ _ Ht Ha).
  Z.div_mod_to_equations. lia.
Qed.

(** C5 fails on the code: [today] is [datetime.now()], with the time of day,
    while a birthday is at midnight.  Read on 2024-06-10 at 10:30, a birthday
    on 10 June is before [today], moves to 2025 and is dropped; a birthday on
    18 June, eight days out, is seven days and some hours away and is kept.
    Only when the clock reads midnight exactly does the window hold today
    and the seven days after it. *)
Theorem C5_birthday_today_is_dropped :
  let book0 := fst (add_contact [] "Ann" "1111111111") in
  let book1 := fst (add_birthday book0 "Ann" "10.06.1990") in
  let book2 := fst (add_contact book1 "Bob" "2222222222") in
  let book := fst (add_birthday book2 "Bob" "18.06.1985") in
  let now := mk_datetime 2024 6 10 10 30 0 0 in
  let midnight := mk_datetime 2024 6 10 0 0 0 0 in
  AddressBook.occurrence now (mk_Field (mk_datetime 1990 6 10 0 0 0 0))
  = Ok (mk_datetime 2025 6 10 0 0 0 0)
  /\ AddressBook.days_until now (mk_datetime 2025 6 10 0 0 0 0) = 364
  /\ AddressBook.days_until now (mk_datetime 2024 6 18 0 0 0 0) = 7
  /\ AddressBook.get_upcoming_birthdays book now
     = Ok [mk_congratulation "Bob" "2024-06-18"]
  /\ birthdays book now
     = "Upcoming birthdays: " ++ NL ++ "Bob - 2024-06-18" ++ NL
  /\ AddressBook.get_upcoming_birthdays book midnight
     = Ok [mk_congratulation "Ann" "2024-06-10"].
Proof.
  cbv zeta. repeat split; vm_compute; reflexivity.
Qed.

(* ------------------------------------------------------------------------- *)
(** ** Further properties: the phones of a record *)

Lemma find_loop_none (ps : list Phone.t) (phone : string) :
  Record_.find_loop ps phone = None <-> ~ In phone (map value ps).
Proof.
  induction ps as [|p ps IH]; cbn; [tauto|].
  destruct (String.eqb_spec (value p) phone) as [E|E].
  - split; [discriminate|]. intros H. exfalso. apply H. now left.
  - rewrite IH. tauto.
Qed.

Lemma find_phone_first (r : Record_.t) (phone : string) :
  match Record_.find_phone r phone with
  | Some p =>
      exists pre post : list Phone.t,
        Record_.phones r = (pre ++ p :: post)%list
        /\ value p = phone
        /\ ~ In phone (map value pre)
  | None => ~ In phone (map value (Record_.phones r))
  end.
Proof.
  unfold Record_.find_phone.
  induction (Record_.phones r) as [|q ps IH]; cbn; [tauto|].
  destruct (String.eqb_spec (value q) phone) as [E|E].
  - exists [], ps. cbn. auto.
  - destruct (Record_.find_loop ps phone) as [p|].
    + destruct IH as (pre & post & -> & Hp & Hpre).
      exists (q :: pre), post. cbn. repeat split; auto.
      intros [H|H]; [contradiction|now apply Hpre].
    + tauto.
Qed.

(** X1. [find_phone] returns the first phone equal to the number asked for,
    and nothing exactly when the record has no such phone. *)
Theorem X1_find_phone_first (r : Record_.t) (phone : string) :
  match Record_.find_phone r phone with
  | Some p =>
      exists pre post : list Phone.t,
        Record_.phones r = (pre ++ p :: post)%list
        /\ value p = phone
        /\ ~ In phone (map value pre)
  | None => ~ In phone (map value (Record_.phones r))
  end.
Proof. apply find_phone_first. Qed.

Lemma remove_phone_values (ps : list Phone.t) (phone : string) :
  map value (filter (fun p => negb (String.eqb (value p) phone)) ps)
  = List.remove string_dec phone (map value ps).
Proof.
  induction ps as [|p ps IH]; cbn; [reflexivity|].
  destruct (string_dec phone (value p)) as [E|E].
  - rewrite <- E, String.eqb_refl. exact IH.
  - destruct (String.eqb_spec (value p) phone) as [E'|E']; [congruence|].
    cbn. now rewrite IH.
Qed.

Lemma count_occ_remove_other (l : list string) (phone q : string) :
  q <> phone ->
  count_occ string_dec (List.remove string_dec phone l) q
  = count_occ string_dec l q.
Proof.
  intros Hq. induction l as [|a l IH]; cbn; [reflexivity|].
  destruct (string_dec phone a) as [E|E].
  - destruct (string_dec a q) as [E'|E']; [congruence|exact IH].
  - cbn. destruct (string_dec a q); now rewrite IH.
Qed.

(** X2. [remove_phone] removes every phone equal to the number and nothing
    else: the numbers left are the numbers of the record without the
    occurrences of that number, in their order and with their duplicates;
    the number is not found afterwards, every other phone is kept, the name
    and the birthday stay, and the record changes exactly when it held the
    number (removing an absent number is no error). *)
Theorem X2_remove_phone (r : Record_.t) (phone : string) :
  map value (Record_.phones (Record_.remove_phone r phone))
  = List.remove string_dec phone (map value (Record_.phones r))
  /\ (forall q : string,
        q <> phone ->
        count_occ string_dec
          (map value (Record_.phones (Record_.remove_phone r phone))) q
        = count_occ string_dec (map value (Record_.phones r)) q)
  /\ Record_.find_phone (Record_.remove_phone r phone) phone = None
  /\ (forall q : Phone.t,
        In q (Record_.phones (Record_.remove_phone r phone))
        <-> In q (Record_.phones r) /\ value q <> phone)
  /\ Record_.name (Record_.remove_phone r phone) = Record_.name r
  /\ Record_.birthday (Record_.remove_phone r phone) = Record_.birthday r
  /\ match Record_.find_phone r phone with
     | None => Record_.remove_phone r phone = r
     | Some _ => Record_.remove_phone r phone <> r
     end.
Proof.
  assert (Hin : forall q : Phone.t,
             In q (Record_.phones (Record_.remove_phone r phone))
             <-> In q (Record_.phones r) /\ value q <> phone).
  { intros q. cbn. rewrite filter_In, negb_true_iff.
    destruct (String.eqb_spec (value q) phone); intuition congruence. }
  split; [apply remove_phone_values|].
  split.
  { intros q Hq. cbn [Record_.remove_phone Record_.phones].
    rewrite remove_phone_values. now apply count_occ_remove_other. }
  split; [|split; [exact Hin|split; [reflexivity|split; [reflexivity|]]]].
  - apply find_loop_none. intros H. apply in_map_iff in H as (q & Hq & Hi).
    apply Hin in Hi. tauto.
  - pose proof (find_phone_first r phone) as Hf.
    destruct (Record_.find_phone r phone) as [p|].
    { destruct Hf as (pre & post & Hps & Hp & _). intros Heq.
      assert (Hp' : In p (Record_.phones (Record_.remove_phone r phone))).
      { rewrite Heq, Hps. apply in_or_app. right. now left. }
      apply Hin in Hp'. tauto. }
    rename Hf into Hn.
    clear Hin. destruct r as [nm ps b]. unfold Record_.remove_phone.
    cbn in *. f_equal.
    induction ps as [|p ps IH]; cbn; [reflexivity|].
    destruct (String.eqb_spec (value p) phone) as [E|E].
    + exfalso. apply Hn. cbn. now left.
    + cbn. rewrite IH; [reflexivity|]. intros H. apply Hn. cbn. now right.
Qed.

Lemma edit_loop_length (ps ps' : list Phone.t) (old_phone new_phone : string) :
  Record_.edit_loop ps old_phone new_phone = Some ps' ->
  List.length ps' = List.length ps /\ In new_phone (map value ps').
Proof.
  revert ps'. induction ps as [|p ps IH]; cbn; intros ps'; [discriminate|].
  destruct (String.eqb (value p) old_phone).
  - intros [= <-]. cbn. auto.
  - destruct (Record_.edit_loop ps old_phone new_phone) as [rest|];
      [|discriminate].
    intros [= <-]. destruct (IH rest eq_refl) as [Hl Hi]. cbn. auto.
Qed.

(** X3. [edit_phone] fails exactly when [find_phone] finds nothing, and its
    only error is the not-found error; when it succeeds the record has as
    many phones as before, the new number among them, and the same name and
    birthday. *)
Theorem X3_edit_phone_result (r : Record_.t) (old_phone new_phone : string) :
  match Record_.edit_phone r old_phone new_phone with
  | Ok r' =>
      Record_.find_phone r old_phone <> None
      /\ List.length (Record_.phones r') = List.length (Record_.phones r)
      /\ Record_.find_phone r' new_phone <> None
      /\ Record_.name r' = Record_.name r
      /\ Record_.birthday r' = Record_.birthday r
  | Raise e => e = PhoneNotFound /\ Record_.find_phone r old_phone = None
  end.
Proof.
  unfold Record_.edit_phone, Record_.find_phone.
  destruct (Record_.edit_loop (Record_.phones r) old_phone new_phone)
    as [ps|] eqn:He.
  - destruct (edit_loop_length _ _ _ _ He) as [Hl Hi]. cbn.
    repeat split; auto.
    + rewrite find_loop_none. intros Hn.
      rewrite (edit_loop_absent _ _ new_phone Hn) in He. discriminate.
    + rewrite find_loop_none. tauto.
  - split; [reflexivity|]. apply find_loop_none. intros Hin.
    destruct (edit_loop_first _ _ new_phone Hin) as (? & ? & ? & _ & _ & _ & H).
    congruence.
Qed.

(* ------------------------------------------------------------------------- *)
(** ** Further properties: the book as a dictionary *)

Lemma dict_get_setitem_cases {V : Type} (d : list (string * V))
  (k k' : string) (v : V) :
  dict_get (dict_setitem d k v) k'
  = if String.eqb k k' then Some v else dict_get d k'.
Proof.
  induction d as [|[k0 w] d IH]; cbn.
  - now destruct (String.eqb k k').
  - destruct (String.eqb_spec k0 k) as [->|E]; cbn.
    + now destruct (String.eqb k k').
    + rewrite IH. destruct (String.eqb_spec k0 k') as [->|E'].
      * destruct (String.eqb_spec k k'); [congruence|reflexivity].
      * reflexivity.
Qed.

Lemma dict_get_none_keys {V : Type} (d : list (string * V)) (k : string) :
  dict_get d k = None <-> ~ In k (map fst d).
Proof.
  induction d as [|[k0 w] d IH]; cbn; [tauto|].
  destruct (String.eqb_spec k0 k) as [->|E].
  - split; [discriminate|]. intros H. exfalso. apply H. now left.
  - rewrite IH. tauto.
Qed.

Lemma dict_setitem_keys {V : Type} (d : list (string * V)) (k : string) (v : V) :
  map fst (dict_setitem d k v)
  = match dict_get d k with
    | Some _ => map fst d
    | None => (map fst d ++ [k])%list
    end.
Proof.
  induction d as [|[k0 w] d IH]; cbn; [reflexivity|].
  destruct (String.eqb_spec k0 k) as [->|E]; cbn; [reflexivity|].
  rewrite IH. now destruct (dict_get d k).
Qed.

Lemma dict_setitem_nodup {V : Type} (d : list (string * V)) (k : string) (v : V) :
  NoDup (map fst d) -> NoDup (map fst (dict_setitem d k v)).
Proof.
  intros Hd. rewrite dict_setitem_keys.
  destruct (dict_get d k) eqn:Hg; [exact Hd|].
  apply dict_get_none_keys in Hg.
  apply NoDup_app; [exact Hd|repeat constructor; intros []|].
  intros x Hx [<-|[]]. contradiction.
Qed.

Lemma dict_delitem_get {V : Type} (d : list (string * V)) (k k' : string) :
  NoDup (map fst d) ->
  dict_get (dict_delitem d k) k'
  = if String.eqb k k' then None else dict_get d k'.
Proof.
  induction d as [|[k0 w] d IH]; cbn; intros Hd.
  - now destruct (String.eqb k k').
  - inversion Hd as [|? ? Hn Hd']; subst.
    destruct (String.eqb_spec k0 k) as [->|E].
    + destruct (String.eqb_spec k k') as [->|E'].
      * now apply dict_get_none_keys.
      * reflexivity.
    + cbn. destruct (String.eqb_spec k0 k') as [->|E'].
      * destruct (String.eqb_spec k k'); [congruence|reflexivity].
      * now apply IH.
Qed.

(** X4. [add_record] then [find]: the record is found under its name, and
    every other name is found as before (the last write for a name wins). *)
Theorem X4_add_record_find (book : AddressBook.t) (record : Record_.t)
  (nm : string) :
  AddressBook.find (AddressBook.add_record book record) nm
  = if String.eqb (value (Record_.name record)) nm then Some record
    else AddressBook.find book nm.
Proof. apply dict_get_setitem_cases. Qed.

(** X5. [add_record] keeps the order of the contacts: a record whose name
    is in the book takes the place of the old one, a new name goes last. *)
Theorem X5_add_record_order (book : AddressBook.t) (record : Record_.t) :
  map fst (AddressBook.add_record book record)
  = match AddressBook.find book (value (Record_.name record)) with
    | Some _ => map fst book
    | None => (map fst book ++ [value (Record_.name record)])%list
    end.
Proof. apply dict_setitem_keys. Qed.

(** X6. [delete] on a book with distinct names: the name is not found
    afterwards, every other name is found as before, and deleting an unknown
    name returns the book as it was. *)
Theorem X6_delete_find (book : AddressBook.t) (nm : string) :
  NoDup (map fst book) ->
  (forall k : string,
     AddressBook.find (AddressBook.delete book nm) k
     = if String.eqb nm k then None else AddressBook.find book k)
  /\ match AddressBook.find book nm with
     | None => AddressBook.delete book nm = book
     | Some _ =>
         List.length (AddressBook.delete book nm) = pred (List.length book)
     end.
Proof.
  intros Hd. unfold AddressBook.delete, AddressBook.find. split.
  - intros k. destruct (dict_get book nm) eqn:Hg.
    + now apply dict_delitem_get.
    + destruct (String.eqb_spec nm k) as [<-|E]; [exact Hg|reflexivity].
  - destruct (dict_get book nm) eqn:Hg; [|reflexivity].
    clear Hd. induction book as [|[k0 w] d IH]; cbn in *; [discriminate|].
    destruct (String.eqb k0 nm); cbn; [reflexivity|].
    rewrite (IH Hg). destruct d; [discriminate Hg|reflexivity].
Qed.

(** Witness for X6: deleting Ann from a book of Ann and Bob. *)
Lemma X6_delete_find_witness :
  let ann := Record_.mk (mk_Field "Ann") [mk_Field "1111111111"] None in
  let bob := Record_.mk (mk_Field "Bob") [mk_Field "2222222222"] None in
  let book := [("Ann", ann); ("Bob", bob)] in
  (forall k : string,
     AddressBook.find (AddressBook.delete book "Ann") k
     = if String.eqb "Ann" k then None else AddressBook.find book k)
  /\ match AddressBook.find book "Ann" with
     | None => AddressBook.delete book "Ann" = book
     | Some _ =>
         List.length (AddressBook.delete book "Ann") = pred (List.length book)
     end.
Proof.
  cbv zeta. apply X6_delete_find. cbn.
  constructor; [|constructor; [|constructor]].
  - intros [H|[]]. discriminate H.
  - intros [].
Defined.

(* ------------------------------------------------------------------------- *)
(** ** Further properties: what the handlers do to the book *)

(** A handler call returns the book as it was or stores one record under the
    name it was given: a first record for a new name, or a record with the
    name of the one that was there. *)
Lemma handle_setitem (c : command) (book : AddressBook.t) (today : datetime) :
  fst (handle c book today) = book
  \/ exists (nm : string) (r' : Record_.t),
       target c = Some nm
       /\ fst (handle c book today) = dict_setitem book nm r'
       /\ ((dict_get book nm = None /\ Record_.name r' = mk_Field nm
            /\ exists phone, c = Add nm phone)
           \/ exists r, dict_get book nm = Some r
                        /\ Record_.name r' = Record_.name r).
Proof.
  destruct c; cbn [handle fst target]; try (now left).
  - unfold add_contact, Func.add_contact, AddressBook.find, dict_getitem,
      AddressBook.add_record.
    destruct (dict_get book nm) as [r|] eqn:Hg; cbn [bind].
    + unfold Record_.add_phone, Phone.init.
      destruct (Phone.validate phone); cbn; [|now left].
      right. exists nm. eexists. split; [reflexivity|]. split; [reflexivity|].
      right. exists r. auto.
    + unfold Record_.init, Record_.add_phone, Phone.init.
      destruct (Phone.validate phone); cbn; [|now left].
      right. exists nm. eexists. split; [reflexivity|]. split; [reflexivity|].
      left. split; [exact Hg|split; [reflexivity|now exists phone]].
  - unfold edit_contact_phone, Func.edit_contact_phone, AddressBook.find,
      dict_getitem.
    destruct (dict_get book nm) as [r|] eqn:Hg; cbn [bind]; [|now left].
    unfold Record_.edit_phone.
    destruct (Record_.edit_loop (Record_.phones r) old_phone new_phone);
      cbn; [|now left].
    right. exists nm. eexists. split; [reflexivity|]. split; [reflexivity|].
    right. exists r. auto.
  - unfold add_birthday, Func.add_birthday, AddressBook.find, dict_getitem.
    destruct (dict_get book nm) as [r|] eqn:Hg; cbn [bind]; [|now left].
    unfold Record_.add_birthday.
    destruct (Birthday.init bday); cbn; [|now left].
    right. exists nm. eexists. split; [reflexivity|]. split; [reflexivity|].
    right. exists r. auto.
Qed.

Lemma forall_setitem_pairs {V : Type} (P : string * V -> Prop)
  (d : list (string * V)) (k : string) (v : V) :
  Forall P d -> P (k, v) -> Forall P (dict_setitem d k v).
Proof.
  intros Hd Hv. induction d as [|[k' w] d IH]; cbn.
  - constructor; [exact Hv|constructor].
  - inversion Hd as [|? ? Hw Hrest]; subst.
    destruct (String.eqb_spec k' k) as [->|E]; constructor; auto.
Qed.

Lemma dict_get_in_pairs {V : Type} (d : list (string * V)) (k : string) (v : V) :
  dict_get d k = Some v -> In (k, v) d.
Proof.
  induction d as [|[k' w] d IH]; cbn; [discriminate|].
  destruct (String.eqb_spec k' k) as [->|E]; [intros [= ->]; now left|auto].
Qed.

Lemma handle_well_formed (c : command) (book : AddressBook.t)
  (today : datetime) :
  well_formed book -> well_formed (fst (handle c book today)).
Proof.
  intros [Hd Hn].
  destruct (handle_setitem c book today)
    as [->|(nm & r' & _ & -> & Hr)]; [now split|].
  split; [now apply dict_setitem_nodup|].
  apply forall_setitem_pairs; [exact Hn|]. cbn.
  destruct Hr as [(_ & -> & _)|(r & Hg & ->)]; [reflexivity|].
  apply dict_get_in_pairs in Hg. rewrite Forall_forall in Hn.
  exact (Hn _ Hg).
Qed.

Lemma reachable_is_well_formed (book : AddressBook.t) :
  reachable book -> well_formed book.
Proof.
  intros Hr. induction Hr as [|book c today Hr IH].
  - split; constructor.
  - now apply handle_well_formed.
Qed.

(** X7. In every book the handlers can build from the empty book the names
    are distinct and every record is stored under its own name. *)
Theorem X7_reachable_well_formed (book : AddressBook.t) :
  reachable book ->
  NoDup (map fst book)
  /\ Forall (fun kv => value (Record_.name (snd kv)) = fst kv) book.
Proof. apply reachable_is_well_formed. Qed.

(** Witness for X7: the book after [add Ann 1111111111] and
    [add Bob 2222222222]. *)
Lemma X7_reachable_well_formed_witness :
  let book :=
    [("Ann", Record_.mk (mk_Field "Ann") [mk_Field "1111111111"] None);
     ("Bob", Record_.mk (mk_Field "Bob") [mk_Field "2222222222"] None)] in
  NoDup (map fst book)
  /\ Forall (fun kv => value (Record_.name (snd kv)) = fst kv) book.
Proof.
  cbv zeta. apply X7_reachable_well_formed.
  pose (today := mk_datetime 2024 6 10 10 30 0 0).
  change (reachable
            (fst (handle (Add "Bob" "2222222222")
               (fst (handle (Add "Ann" "1111111111") [] today)) today))).
  repeat apply reach_step. apply reach_empty.
Defined.

(** X8. A handler call changes at most the contact it names: every other
    name is found after the call exactly as before. *)
Theorem X8_other_contacts_untouched (c : command) (book : AddressBook.t)
  (today : datetime) (k : string) :
  target c <> Some k ->
  AddressBook.find (fst (handle c book today)) k = AddressBook.find book k.
Proof.
  intros Ht.
  destruct (handle_setitem c book today)
    as [->|(nm & r' & Hc & -> & _)]; [reflexivity|].
  unfold AddressBook.find. rewrite dict_get_setitem_cases.
  destruct (String.eqb_spec nm k) as [->|E]; [congruence|reflexivity].
Qed.

(** Witness for X8: [add Bob ...] does not touch Ann. *)
Lemma X8_other_contacts_untouched_witness :
  let book :=
    [("Ann", Record_.mk (mk_Field "Ann") [mk_Field "1111111111"] None)] in
  let today := mk_datetime 2024 6 10 10 30 0 0 in
  AddressBook.find (fst (handle (Add "Bob" "2222222222") book today)) "Ann"
  = AddressBook.find book "Ann".
Proof.
  cbv zeta. apply X8_other_contacts_untouched. cbn. discriminate.
Defined.

(** X9. No handler removes or reorders contacts: after a call the names are
    those before it, in the same order, followed by the new name when the
    call was an [add] of a name the book did not have. *)
Theorem X9_contacts_only_grow (c : command) (book : AddressBook.t)
  (today : datetime) :
  map fst (fst (handle c book today)) = map fst book
  \/ exists nm phone : string,
       c = Add nm phone
       /\ AddressBook.find book nm = None
       /\ Phone.validate phone = true
       /\ map fst (fst (handle c book today)) = (map fst book ++ [nm])%list.
Proof.
  destruct (handle_setitem c book today)
    as [->|(nm & r' & Hc & He & Hr)]; [now left|].
  rewrite He, dict_setitem_keys.
  destruct Hr as [(Hg & _ & phone & ->)|(r & Hg & _)].
  - right. exists nm, phone. rewrite Hg. repeat split; auto.
    cbn [handle fst] in He. unfold add_contact, Func.add_contact,
      AddressBook.find, Record_.init, Record_.add_phone, Phone.init in He.
    rewrite Hg in He. destruct (Phone.validate phone); [reflexivity|].
    cbn in He. apply (f_equal (@List.length _)) in He.
    assert (Hl : forall d : AddressBook.t,
               List.length (dict_setitem d nm r') <> 0%nat).
    { intros [|[k w] d]; cbn; [discriminate|]. destruct (String.eqb k nm);
        discriminate. }
    exfalso. revert He. clear -Hg Hl. intros He.
    assert (Hs : List.length (dict_setitem book nm r')
                 = S (List.length book)).
    { clear He Hl. induction book as [|[k w] d IH]; cbn in *; [reflexivity|].
      destruct (String.eqb k nm); [discriminate|]. cbn. now rewrite IH. }
    lia.
  - left. now rewrite Hg.
Qed.

Lemma phones_of_setitem (book : AddressBook.t) (nm : string) (r : Record_.t) :
  phones_of (dict_setitem book nm r) nm = map value (Record_.phones r).
Proof.
  unfold phones_of, AddressBook.find. now rewrite dict_get_setitem.
Qed.

Lemma add_contact_cases (book : AddressBook.t) (nm phone : string) :
  add_contact book nm phone
  = if Phone.validate phone then
      match AddressBook.find book nm with
      | None =>
          (dict_setitem book nm
             (Record_.mk (mk_Field nm) [mk_Field phone] None),
           "Contact " ++ nm ++ " has been added with phone number " ++ phone)
      | Some r =>
          (dict_setitem book nm
             (Record_.mk (Record_.name r)
                (Record_.phones r ++ [mk_Field phone]) (Record_.birthday r)),
           "Phone number " ++ phone ++ " has been added to contact " ++ nm)
      end
    else (book, "Error: Phone number must contain 10 digits").
Proof.
  unfold add_contact, Func.add_contact, AddressBook.find, dict_getitem,
    AddressBook.add_record, Record_.init, Record_.add_phone, Phone.init.
  destruct (dict_get book nm) as [r|]; destruct (Phone.validate phone);
    reflexivity.
Qed.

(** X10. [add_contact] appends: after the call the contact has the phones
    it had (none for a new contact) followed by the new one when the phone
    is valid, and the phones it had when it is not; in the second case the
    book is returned as it was, with the format error as the message. *)
Theorem X10_add_contact_appends (book : AddressBook.t) (nm phone : string) :
  phones_of (fst (add_contact book nm phone)) nm
  = (if Phone.validate phone then (phones_of book nm ++ [phone])%list
     else phones_of book nm)
  /\ (if Phone.validate phone then True
      else add_contact book nm phone
           = (book, "Error: Phone number must contain 10 digits")).
Proof.
  rewrite add_contact_cases. destruct (Phone.validate phone); [|auto].
  split; [|exact I].
  unfold phones_of at 2. destruct (AddressBook.find book nm) as [r|];
    cbn [fst]; rewrite phones_of_setitem; cbn; [|reflexivity].
  now rewrite map_app.
Qed.

(** X11. After a successful [add], the [phone] command lists the phones the
    contact had, then the new one, joined by a comma and a blank. *)
Theorem X11_add_then_show_phones (book : AddressBook.t) (nm phone : string) :
  Phone.validate phone = true ->
  show_phones (fst (add_contact book nm phone)) nm
  = "Phone numbers for " ++ nm ++ " are: "
    ++ join ", " (phones_of book nm ++ [phone]).
Proof.
  intros Hv. rewrite add_contact_cases, Hv.
  unfold show_phones, Func.show_phones, phones_of, AddressBook.find,
    dict_getitem.
  destruct (dict_get book nm) as [r|]; cbn [fst];
    rewrite !dict_get_setitem; cbn; [|reflexivity].
  now rewrite map_app.
Qed.

(** Witness for X11: a second phone for Ann. *)
Lemma X11_add_then_show_phones_witness :
  let book :=
    [("Ann", Record_.mk (mk_Field "Ann") [mk_Field "1111111111"] None)] in
  show_phones (fst (add_contact book "Ann" "2222222222")) "Ann"
  = "Phone numbers for " ++ "Ann" ++ " are: "
    ++ join ", " (phones_of book "Ann" ++ ["2222222222"]).
Proof.
  cbv zeta. apply X11_add_then_show_phones. reflexivity.
Defined.

(** X12. A [change] of a phone the contact has puts the new number where
    the first occurrence of the old one was, leaves the other phones in
    place, and reports the change. *)
Theorem X12_change_in_place (book : AddressBook.t)
  (nm old_phone new_phone : string) :
  In old_phone (phones_of book nm) ->
  exists pre post : list string,
    phones_of book nm = (pre ++ old_phone :: post)%list
    /\ ~ In old_phone pre
    /\ phones_of (fst (edit_contact_phone book nm old_phone new_phone)) nm
       = (pre ++ new_phone :: post)%list
    /\ snd (edit_contact_phone book nm old_phone new_phone)
       = "Contact " ++ nm ++ " has been changedphone number from "
         ++ old_phone ++ " to phone number " ++ new_phone.
Proof.
  unfold phones_of at 1 2. unfold edit_contact_phone,
    Func.edit_contact_phone, AddressBook.find, dict_getitem.
  destruct (dict_get book nm) as [r|]; [|contradiction].
  intros Hin. cbn [bind].
  destruct (edit_loop_first _ _ new_phone Hin)
    as (pre & p & post & Hps & Hp & Hpre & He).
  unfold Record_.edit_phone. rewrite He. cbn.
  exists (map value pre), (map value post).
  rewrite phones_of_setitem. cbn. rewrite Hps, !map_app. cbn. rewrite Hp.
  auto.
Qed.

(** Witness for X12: the first of two equal phones of Ann is changed. *)
Lemma X12_change_in_place_witness :
  let book :=
    [("Ann", Record_.mk (mk_Field "Ann")
               [mk_Field "1111111111"; mk_Field "1111111111"] None)] in
  exists pre post : list string,
    phones_of book "Ann" = (pre ++ "1111111111" :: post)%list
    /\ ~ In "1111111111" pre
    /\ phones_of (fst (edit_contact_phone book "Ann" "1111111111" "2222222222"))
         "Ann"
       = (pre ++ "2222222222" :: post)%list
    /\ snd (edit_contact_phone book "Ann" "1111111111" "2222222222")
       = "Contact " ++ "Ann" ++ " has been changedphone number from "
         ++ "1111111111" ++ " to phone number " ++ "2222222222".
Proof.
  cbv zeta. apply X12_change_in_place. cbn. auto.
Defined.

Lemma fold_left_append_acc {X : Type} (f : X -> string) (l : list X)
  (acc : string) :
  fold_left (fun res x => res ++ f x) l acc
  = acc ++ fold_left (fun res x => res ++ f x) l "".
Proof.
  revert acc. induction l as [|x l IH]; intros acc; cbn.
  - now rewrite append_empty_r.
  - rewrite IH. rewrite (IH (f x)).
    clear. induction acc as [|c acc IHa]; cbn; [reflexivity|now rewrite IHa].
Qed.

(** X13. [show_all] on the empty book reports that there are no contacts;
    on any other book it prints the rendering of every record followed by a
    line feed, in the order of the book. *)
Theorem X13_show_all_lines (book : AddressBook.t) :
  show_all book
  = match book with
    | [] => "An unexpected error occurred: No contacts found"
    | (_, r) :: rest =>
        Record_.str r ++ NL
        ++ match rest with [] => "" | _ => show_all rest end
    end.
Proof.
  destruct book as [|[k r] rest]; [reflexivity|].
  unfold show_all, Func.show_all, input_error. cbn [dict_values map snd fold_left].
  change ("" ++ Record_.str r ++ NL) with (Record_.str r ++ NL).
  rewrite (fold_left_append_acc (fun record => Record_.str record ++ NL)).
  assert (Ha : forall a b c : string, (a ++ b) ++ c = a ++ b ++ c).
  { intros a b c. induction a as [|x a IH]; cbn; [reflexivity|now rewrite IH]. }
  rewrite Ha. destruct rest as [|[k' r'] rest']; reflexivity.
Qed.

Lemma find_stays (c : command) (book : AddressBook.t) (today : datetime)
  (nm : string) (r : Record_.t) :
  AddressBook.find book nm = Some r ->
  exists r', AddressBook.find (fst (handle c book today)) nm = Some r'.
Proof.
  intros Hf.
  destruct (handle_setitem c book today)
    as [->|(k & r' & _ & -> & _)]; [now exists r|].
  unfold AddressBook.find in *. rewrite dict_get_setitem_cases.
  destruct (String.eqb k nm); [now exists r'|now exists r].
Qed.

(** X14. The last successful [add-birthday] wins: whatever an earlier
    [add-birthday] for the contact did, succeed or fail, after adding a real
    date with a year from 1000 on [show-birthday] prints that date. *)
Theorem X14_last_birthday_wins (book : AddressBook.t) (nm s1 s2 : string)
  (r : Record_.t) :
  AddressBook.find book nm = Some r ->
  names_real_date s2 = true -> 1000 <= year (date_of s2) ->
  show_birthday
    (fst (add_birthday (fst (add_birthday book nm s1)) nm s2)) nm
  = "Birthday for " ++ nm ++ " is " ++ s2.
Proof.
  intros Hf Hr Hy.
  destruct (find_stays (AddBirthday nm s1) book
              (mk_datetime 1 1 1 0 0 0 0) nm r Hf) as (r1 & H1).
  cbn [handle] in H1.
  destruct (birthday_round_trip s2 Hr Hy) as (b & _ & _ & H).
  exact (H _ nm r1 H1).
Qed.

(** Witness for X14: a misspelt date, then 29.02.2020. *)
Lemma X14_last_birthday_wins_witness :
  let book :=
    [("Ann", Record_.mk (mk_Field "Ann") [mk_Field "1111111111"] None)] in
  show_birthday
    (fst (add_birthday (fst (add_birthday book "Ann" "31.02.2020")) "Ann"
            "29.02.2020")) "Ann"
  = "Birthday for " ++ "Ann" ++ " is " ++ "29.02.2020".
Proof.
  cbv zeta.
  apply (X14_last_birthday_wins _ "Ann" "31.02.2020" "29.02.2020"
           (Record_.mk (mk_Field "Ann") [mk_Field "1111111111"] None));
    [reflexivity | reflexivity | cbn; lia].
Defined.

(* ------------------------------------------------------------------------- *)
(** ** Further properties: upcoming birthdays *)

Lemma for_each_no_birthday (book : AddressBook.t) (today : datetime)
  (records : list Record_.t) (acc : list congratulation) :
  Forall (fun r => Record_.birthday r = None) records ->
  for_each (AddressBook.loop_body book today) records acc = Ok acc.
Proof.
  induction 1 as [|r records Hr _ IH]; cbn; [reflexivity|].
  unfold AddressBook.loop_body at 1. rewrite Hr. cbn [bind]. exact IH.
Qed.

(** X15. When no contact has a birthday the query returns the empty list
    and [birthdays] prints that there are none, whatever the clock reads and
    however many contacts there are. *)
Theorem X15_no_birthdays (book : AddressBook.t) (today : datetime) :
  Forall (fun r => Record_.birthday r = None) (dict_values book) ->
  AddressBook.get_upcoming_birthdays book today = Ok []
  /\ birthdays book today = "No upcoming birthdays".
Proof.
  intros H. unfold birthdays, Func.birthdays,
    AddressBook.get_upcoming_birthdays.
  rewrite (for_each_no_birthday book today _ [] H). auto.
Qed.

(** Witness for X15: a book with Ann alone, who has no birthday. *)
Lemma X15_no_birthdays_witness :
  let book :=
    [("Ann", Record_.mk (mk_Field "Ann") [mk_Field "1111111111"] None)] in
  let today := mk_datetime 2024 6 10 10 30 0 0 in
  AddressBook.get_upcoming_birthdays book today = Ok []
  /\ birthdays book today = "No upcoming birthdays".
Proof.
  cbv zeta. apply X15_no_birthdays. repeat constructor.
Defined.

Lemma for_each_raises {S X : Type} (body : X -> S -> result S)
  (l : list X) (x : X) :
  In x l -> (forall s, exists e, body x s = Raise e) ->
  forall s, exists e, for_each body l s = Raise e.
Proof.
  intros Hin Hx. induction l as [|y l IH]; [contradiction|].
  intros s. cbn. destruct (body y s) as [s'|e] eqn:Hy.
  - cbn [bind]. destruct Hin as [->|Hin]; [|now apply IH].
    destruct (Hx s) as (e & He). congruence.
  - now exists e.
Qed.

Lemma replace_year_leap_day (dt : datetime) (y : Z) :
  month dt = 2 -> day dt = 29 -> is_leap y = false ->
  exists e, replace_year dt y = Raise e.
Proof.
  intros Hm Hd Hl. unfold replace_year, datetime_new, check_date_fields.
  rewrite Hm, Hd.
  destruct (negb ((MINYEAR <=? y) && (y <=? MAXYEAR)));
    [eexists; reflexivity|].
  change (negb ((1 <=? 2) && (2 <=? 12))) with false. cbv iota.
  change (days_in_month y 2) with (if is_leap y then 29 else 28).
  rewrite Hl.
  change (negb ((1 <=? 29) && (29 <=? 28))) with true. cbv iota.
  eexists. reflexivity.
Qed.

(** X16. A birthday on 29 February breaks the query in a year that is not a
    leap year: when some contact has such a birthday the query returns no
    list at all, and [birthdays] prints an error message instead of the
    other contacts' birthdays. *)
Theorem X16_leap_day_birthday_raises (book : AddressBook.t)
  (today : datetime) (record : Record_.t) (b : Birthday.t) :
  In record (dict_values book) ->
  Record_.birthday record = Some b ->
  month (value b) = 2 -> day (value b) = 29 ->
  is_leap (year today) = false ->
  exists e : exn,
    AddressBook.get_upcoming_birthdays book today = Raise e
    /\ birthdays book today = input_error (Raise e)
    /\ birthdays book today <> "No upcoming birthdays".
Proof.
  intros Hin Hb Hm Hd Hl.
  assert (Hr : forall acc, exists e,
             AddressBook.loop_body book today record acc = Raise e).
  { intros acc. unfold AddressBook.loop_body, AddressBook.occurrence.
    rewrite Hb.
    destruct (replace_year_leap_day (value b) (year today) Hm Hd Hl)
      as (e & ->).
    now exists e. }
  destruct (for_each_raises _ _ _ Hin Hr []) as (e & He).
  exists e. unfold birthdays, Func.birthdays,
    AddressBook.get_upcoming_birthdays.
  rewrite He. cbn [bind]. repeat split.
  unfold input_error. destruct (class_of e); discriminate.
Qed.

(** Witness for X16: Ann born on 29.02.2020, the query run in 2023. *)
Lemma X16_leap_day_birthday_raises_witness :
  let book :=
    [("Ann", Record_.mk (mk_Field "Ann") [mk_Field "1111111111"]
               (Some (mk_Field (mk_datetime 2020 2 29 0 0 0 0))))] in
  let today := mk_datetime 2023 2 25 10 30 0 0 in
  exists e : exn,
    AddressBook.get_upcoming_birthdays book today = Raise e
    /\ birthdays book today = input_error (Raise e)
    /\ birthdays book today <> "No upcoming birthdays".
Proof.
  cbv zeta.
  apply (X16_leap_day_birthday_raises _ _
           (Record_.mk (mk_Field "Ann") [mk_Field "1111111111"]
              (Some (mk_Field (mk_datetime 2020 2 29 0 0 0 0))))
           (mk_Field (mk_datetime 2020 2 29 0 0 0 0)));
    try reflexivity.
  cbn. now left.
Defined.

Lemma add_days_time (dt dt' : datetime) (n : Z) :
  time_ok dt -> datetime_add_days dt n = Ok dt' ->
  hour dt' = hour dt /\ minute dt' = minute dt /\ second dt' = second dt
  /\ microsecond dt' = microsecond dt.
Proof.
  intros (Hh & Hmi & Hs & Hus). unfold datetime_add_days, timedelta_new.
  cbv zeta. cbn [days seconds microseconds].
  assert (E1 : microsecond dt / 1000000 = 0)
    by (Z.div_mod_to_equations; lia).
  assert (E0 : microsecond dt mod 1000000 = microsecond dt)
    by (Z.div_mod_to_equations; lia).
  rewrite E1, E0, Z.add_0_r.
  assert (E2 : day_seconds dt mod 86400 = day_seconds dt)
    by (unfold day_seconds; Z.div_mod_to_equations; lia).
  rewrite E2.
  match goal with |- context [if ?t then _ else _] => destruct t end;
    [|discriminate].
  destruct (ord2ymd _) as [[y m] d]. intros [= <-]. cbn.
  unfold day_seconds. repeat split; Z.div_mod_to_equations; lia.
Qed.

(** X17. [next_monday] returns a Monday: for a datetime with a time of day
    in range, the result is on weekday 0, from 0 to 6 days after the given
    day (0 for a Monday, 2 for a Saturday, 1 for a Sunday), at the same time
    of day. *)
Theorem X17_next_monday (d m : datetime) :
  time_ok d -> AddressBook.next_monday d = Ok m ->
  weekday m = 0
  /\ toordinal m = toordinal d + (7 - weekday d) mod 7
  /\ 0 <= (7 - weekday d) mod 7 <= 6
  /\ hour m = hour d /\ minute m = minute d /\ second m = second d
  /\ microsecond m = microsecond d.
Proof.
  intros Ht Hn. unfold AddressBook.next_monday in Hn. cbv zeta in Hn.
  split; [|split; [|split]].
  - rewrite (weekday_add_days _ _ _ Ht Hn).
    assert (Hr : 0 <= weekday d < 7)
      by (unfold weekday; apply Z.mod_pos_bound; lia).
    Z.div_mod_to_equations. lia.
  - exact (add_days_ordinal _ _ _ Ht Hn).
  - pose proof (Z.mod_pos_bound (7 - weekday d) 7). lia.
  - exact (add_days_time _ _ _ Ht Hn).
Qed.

(** Witness for X17: Saturday 15 June 2024, 10:30. *)
Lemma X17_next_monday_witness :
  let d := mk_datetime 2024 6 15 10 30 0 0 in
  let m := mk_datetime 2024 6 17 10 30 0 0 in
  weekday m = 0
  /\ toordinal m = toordinal d + (7 - weekday d) mod 7
  /\ 0 <= (7 - weekday d) mod 7 <= 6
  /\ hour m = hour d /\ minute m = minute d /\ second m = second d
  /\ microsecond m = microsecond d.
Proof.
  cbv zeta. apply X17_next_monday; [|reflexivity].
  unfold time_ok. cbn. lia.
Defined.

Lemma datetime_new_raise (y m d h mi s us : Z) (e : exn) :
  datetime_new y m d h mi s us = Raise e -> exists why, e = DateError why.
Proof.
  unfold datetime_new, check_date_fields, check_time_fields.
  repeat match goal with
         | |- context [if ?t then _ else _] => destruct t; cbn [bind]
         end;
    intros [= <-]; eexists; reflexivity.
Qed.

Lemma occurrence_raise (today : datetime) (b : Birthday.t) (e : exn) :
  AddressBook.occurrence today b = Raise e -> exists why, e = DateError why.
Proof.
  unfold AddressBook.occurrence, replace_year.
  destruct (datetime_new (year today) _ _ _ _ _ _) as [d1|e1] eqn:H1; cbn [bind].
  - destruct (datetime_lt d1 today); [apply datetime_new_raise|discriminate].
  - intros [= <-]. now apply datetime_new_raise in H1.
Qed.

Lemma well_formed_getitem (book : AddressBook.t) (record : Record_.t) :
  well_formed book -> In record (dict_values book) ->
  dict_getitem book (value (Record_.name record)) = Ok record
  /\ In (value (Record_.name record)) (map fst book).
Proof.
  intros [Hd Hn] Hin. unfold dict_values in Hin.
  apply in_map_iff in Hin as ([k r] & Hr & Hin). cbn in Hr. subst r.
  rewrite Forall_forall in Hn. pose proof (Hn _ Hin) as Hk. cbn in Hk.
  rewrite Hk. split; [|apply in_map_iff; now exists (k, record)].
  unfold dict_getitem. clear Hn Hk.
  induction book as [|[k' w] d IH]; cbn in *; [contradiction|].
  inversion Hd as [|? ? Hk' Hd']; subst.
  destruct Hin as [[= -> ->]|Hin].
  - now rewrite String.eqb_refl.
  - destruct (String.eqb_spec k' k) as [->|E]; [|now apply IH].
    exfalso. apply Hk'. apply in_map_iff. now exists (k, record).
Qed.

(* ------------------------------------------------------------------------- *)
(** ** The upcoming birthdays, entry by entry *)

Lemma datetime_new_date_ok (y m d h mi s us : Z) (dt : datetime) :
  datetime_new y m d h mi s us = Ok dt -> date_ok dt.
Proof.
  intros H. destruct (datetime_new_ok _ _ _ _ _ _ _ _ H) as [-> _].
  revert H. unfold datetime_new, check_date_fields, date_ok, MINYEAR, MAXYEAR.
  cbn [year month day].
  destruct ((1 <=? y) && (y <=? 9999)) eqn:Hy; [|discriminate].
  destruct ((1 <=? m) && (m <=? 12)) eqn:Hm; [|discriminate].
  destruct ((1 <=? d) && (d <=? days_in_month y m)) eqn:Hd; [|discriminate].
  intros _. rewrite andb_true_iff, !Z.leb_le in Hy, Hm, Hd. lia.
Qed.

Lemma occurrence_date_ok (today : datetime) (b : Birthday.t) (occ : datetime) :
  AddressBook.occurrence today b = Ok occ -> date_ok occ.
Proof.
  unfold AddressBook.occurrence, replace_year.
  destruct (datetime_new (year today) _ _ _ _ _ _) as [d1|] eqn:H1;
    [|discriminate].
  cbn [bind]. apply datetime_new_date_ok in H1.
  destruct (datetime_lt d1 today).
  - intros H2. now apply datetime_new_date_ok in H2.
  - now intros [= <-].
Qed.

Lemma days_before_year_next (y : Z) :
  days_before_year (y + 1)
  = days_before_year y + (if is_leap y then 366 else 365).
Proof.
  unfold days_before_year, is_leap. cbv zeta.
  replace (y + 1 - 1) with y by lia.
  destruct (Z.eqb_spec (y mod 4) 0), (Z.eqb_spec (y mod 100) 0),
    (Z.eqb_spec (y mod 400) 0); cbn; Z.div_mod_to_equations; lia.
Qed.

Lemma days_before_year_bounds (y : Z) :
  1 <= y <= 10000 -> 0 <= days_before_year y <= MAXORDINAL.
Proof.
  unfold days_before_year, MAXORDINAL. cbv zeta. intros Hy.
  Z.div_mod_to_equations. lia.
Qed.

Lemma day_of_year_bounds (y m d : Z) :
  1 <= m <= 12 -> 1 <= d <= days_in_month y m ->
  1 <= days_before_month y m + d <= (if is_leap y then 366 else 365).
Proof.
  intros Hm. unfold days_in_month, days_before_month.
  assert (Hc : m = 1 \/ m = 2 \/ m = 3 \/ m = 4 \/ m = 5 \/ m = 6 \/ m = 7
               \/ m = 8 \/ m = 9 \/ m = 10 \/ m = 11 \/ m = 12) by lia.
  destruct (is_leap y);
    repeat match goal with H : _ \/ _ |- _ => destruct H as [H|H] end;
    subst m;
    change (Z.to_nat 1) with 1%nat; change (Z.to_nat 2) with 2%nat;
    change (Z.to_nat 3) with 3%nat; change (Z.to_nat 4) with 4%nat;
    change (Z.to_nat 5) with 5%nat; change (Z.to_nat 6) with 6%nat;
    change (Z.to_nat 7) with 7%nat; change (Z.to_nat 8) with 8%nat;
    change (Z.to_nat 9) with 9%nat; change (Z.to_nat 10) with 10%nat;
    change (Z.to_nat 11) with 11%nat; change (Z.to_nat 12) with 12%nat;
    cbn [nth DAYS_IN_MONTH DAYS_BEFORE_MONTH Z.eqb Z.ltb Z.compare
         Pos.compare Pos.compare_cont Pos.eqb andb];
    lia.
Qed.

(** The ordinal of a day of the calendar is in the range of [date]. *)
Lemma toordinal_bounds (dt : datetime) :
  date_ok dt -> 1 <= toordinal dt <= MAXORDINAL.
Proof.
  intros (Hy & Hm & Hd). unfold toordinal, ymd2ord.
  pose proof (day_of_year_bounds _ _ _ Hm Hd) as Hb.
  pose proof (days_before_year_next (year dt)) as Hn.
  pose proof (days_before_year_bounds (year dt) ltac:(lia)) as H1.
  pose proof (days_before_year_bounds (year dt + 1) ltac:(lia)) as H2.
  destruct (is_leap (year dt)); lia.
Qed.

(** Within the range of [date], adding whole days succeeds. *)
Lemma add_days_plus (dt : datetime) (k : Z) :
  time_ok dt -> 1 <= toordinal dt + k <= MAXORDINAL ->
  datetime_add_days dt k = Ok (plus_days dt k).
Proof.
  intros (Hh & Hmi & Hs & Hus) Hr. unfold datetime_add_days, timedelta_new, plus_days.
  cbv zeta. cbn [days seconds microseconds].
  assert (E1 : microsecond dt / 1000000 = 0)
    by (Z.div_mod_to_equations; lia).
  assert (E0 : microsecond dt mod 1000000 = microsecond dt)
    by (Z.div_mod_to_equations; lia).
  rewrite E1, E0, Z.add_0_r.
  assert (E2 : day_seconds dt mod 86400 = day_seconds dt)
    by (unfold day_seconds; Z.div_mod_to_equations; lia).
  assert (E3 : day_seconds dt / 86400 = 0)
    by (unfold day_seconds; Z.div_mod_to_equations; lia).
  rewrite E2, E3, Z.add_0_r.
  assert (E4 : day_seconds dt / 3600 = hour dt)
    by (unfold day_seconds; Z.div_mod_to_equations; lia).
  assert (E5 : day_seconds dt mod 3600 / 60 = minute dt)
    by (unfold day_seconds; Z.div_mod_to_equations; lia).
  assert (E6 : day_seconds dt mod 60 = second dt)
    by (unfold day_seconds; Z.div_mod_to_equations; lia).
  rewrite E4, E5, E6.
  replace ((0 <? toordinal dt + k) && (toordinal dt + k <=? MAXORDINAL))
    with true;
    [destruct (ord2ymd (toordinal dt + k)) as [[y m] d]; reflexivity|].
  symmetry. apply andb_true_iff. rewrite Z.ltb_lt, Z.leb_le. lia.
Qed.

Lemma plus_days_ordinal (dt : datetime) (k : Z) :
  1 <= toordinal dt + k <= MAXORDINAL ->
  toordinal (plus_days dt k) = toordinal dt + k.
Proof.
  intros Hr. unfold plus_days.
  pose proof (ymd2ord_ord2ymd (toordinal dt + k) Hr) as Ho.
  destruct (ord2ymd (toordinal dt + k)) as [[y m] d]. exact Ho.
Qed.

Lemma weekday_range (dt : datetime) : 0 <= weekday dt <= 6.
Proof.
  unfold weekday. pose proof (Z.mod_pos_bound (toordinal dt + 6) 7). lia.
Qed.

(** No Saturday or Sunday is within two days of the last day of year 9999,
    a Friday. *)
Lemma weekend_room (dt : datetime) :
  date_ok dt -> 5 <= weekday dt ->
  1 <= toordinal dt /\ toordinal dt + 2 <= MAXORDINAL.
Proof.
  intros Hd Hw. apply toordinal_bounds in Hd. unfold weekday in Hw.
  unfold MAXORDINAL in *. Z.div_mod_to_equations. lia.
Qed.

(** On a day of the calendar the congratulation date is computed without
    an exception, and is the day the specification names. *)
Lemma congratulate_total (occ : datetime) :
  date_ok occ -> time_ok occ ->
  AddressBook.congratulate occ = Ok (congratulation_day occ).
Proof.
  intros Hd Ht. unfold AddressBook.congratulate, congratulation_day,
    AddressBook.next_monday.
  destruct (Z.ltb_spec (weekday occ) 5) as [Hw|Hw]; [reflexivity|].
  pose proof (weekend_room occ Hd Hw) as Hr.
  pose proof (weekday_range occ) as Hr'. cbv zeta.
  destruct (Z.eqb_spec (weekday occ) 5) as [E|E].
  - rewrite E. change ((7 - 5) mod 7) with 2. apply add_days_plus; [exact Ht|lia].
  - assert (E' : weekday occ = 6) by lia. rewrite E'.
    change ((7 - 6) mod 7) with 1. apply add_days_plus; [exact Ht|lia].
Qed.

Lemma congratulation_day_cases (occ : datetime) :
  date_ok occ ->
  (weekday occ < 5 -> congratulation_day occ = occ)
  /\ (weekday occ = 5 ->
      weekday (congratulation_day occ) = 0
      /\ toordinal (congratulation_day occ) = toordinal occ + 2)
  /\ (weekday occ = 6 ->
      weekday (congratulation_day occ) = 0
      /\ toordinal (congratulation_day occ) = toordinal occ + 1).
Proof.
  intros Hd. unfold congratulation_day. split; [|split]; intros Hw.
  - destruct (Z.ltb_spec (weekday occ) 5); [reflexivity|lia].
  - pose proof (weekend_room occ Hd ltac:(lia)) as Hr.
    destruct (Z.ltb_spec (weekday occ) 5); [lia|].
    destruct (Z.eqb_spec (weekday occ) 5); [|lia].
    assert (Ho := plus_days_ordinal occ 2 ltac:(lia)).
    split; [|exact Ho]. unfold weekday in *. rewrite Ho.
    Z.div_mod_to_equations. lia.
  - pose proof (weekend_room occ Hd ltac:(lia)) as Hr.
    destruct (Z.ltb_spec (weekday occ) 5); [lia|].
    destruct (Z.eqb_spec (weekday occ) 5); [lia|].
    assert (Ho := plus_days_ordinal occ 1 ltac:(lia)).
    split; [|exact Ho]. unfold weekday in *. rewrite Ho.
    Z.div_mod_to_equations. lia.
Qed.

(** One turn of the loop appends what the record is owed. *)
Lemma loop_body_entry_for (book : AddressBook.t) (today : datetime)
  (record : Record_.t) (acc : list congratulation) :
  AddressBook.loop_body book today record acc
  = (o <- entry_for book today record ;;
     Ok (match o with Some e => acc ++ [e] | None => acc end)%list).
Proof.
  unfold AddressBook.loop_body, entry_for, in_window.
  destruct (Record_.birthday record) as [b|]; [|reflexivity].
  destruct (AddressBook.occurrence today b) as [occ|e] eqn:Ho; [|reflexivity].
  cbn [bind].
  destruct ((0 <=? AddressBook.days_until today occ)
            && (AddressBook.days_until today occ <=? 7)); [|reflexivity].
  rewrite (congratulate_total occ (occurrence_date_ok _ _ _ Ho)
             (occurrence_time_ok _ _ _ Ho)).
  cbn [bind].
  destruct (dict_getitem book (value (Record_.name record))); reflexivity.
Qed.

Lemma for_each_collect (book : AddressBook.t) (today : datetime)
  (records : list Record_.t) :
  forall acc : list congratulation,
    for_each (AddressBook.loop_body book today) records acc
    = (new <- collect (map (entry_for book today) records) ;;
       Ok (acc ++ new)%list).
Proof.
  induction records as [|record records IH]; intros acc; cbn [for_each map collect].
  - cbn. now rewrite app_nil_r.
  - rewrite loop_body_entry_for.
    destruct (entry_for book today record) as [[e|]|x]; cbn [bind];
      [| |reflexivity]; rewrite IH;
      destruct (collect (map (entry_for book today) records)); cbn [bind];
      try reflexivity.
    now rewrite <- app_assoc.
Qed.

(** The query returns the entries owed to the records, in their order. *)
Lemma upcoming_exact (book : AddressBook.t) (today : datetime) :
  AddressBook.get_upcoming_birthdays book today
  = collect (map (entry_for book today) (dict_values book)).
Proof.
  unfold AddressBook.get_upcoming_birthdays. rewrite for_each_collect.
  destruct (collect _); reflexivity.
Qed.

Lemma entry_for_own (book : AddressBook.t) (today : datetime)
  (record : Record_.t) :
  well_formed book -> In record (dict_values book) ->
  entry_for book today record = own_entry today record.
Proof.
  intros Hw Hin. unfold entry_for, own_entry.
  destruct (well_formed_getitem book record Hw Hin) as [-> _].
  reflexivity.
Qed.

Lemma upcoming_exact_own (book : AddressBook.t) (today : datetime) :
  well_formed book ->
  AddressBook.get_upcoming_birthdays book today
  = collect (map (own_entry today) (dict_values book)).
Proof.
  intros Hw. rewrite upcoming_exact. f_equal.
  apply map_ext_in. intros r Hr. now apply entry_for_own.
Qed.

Lemma collect_returns {A X : Type} (f : X -> result (option A)) (l : list X) :
  (forall x, In x l -> exists o, f x = Ok o) ->
  exists r, collect (map f l) = Ok r.
Proof.
  induction l as [|x l IH]; intros H; cbn [map collect].
  - now exists [].
  - destruct (H x (or_introl eq_refl)) as [o ->].
    destruct (IH (fun y Hy => H y (or_intror Hy))) as [r ->].
    cbn [bind]. eexists. reflexivity.
Qed.

Lemma own_entry_returns (today : datetime) (record : Record_.t) :
  (forall b, Record_.birthday record = Some b ->
             exists occ, AddressBook.occurrence today b = Ok occ) ->
  exists o, own_entry today record = Ok o.
Proof.
  intros H. unfold own_entry.
  destruct (Record_.birthday record) as [b|]; [|eexists; reflexivity].
  destruct (H b eq_refl) as [occ ->]. cbn [bind].
  destruct (in_window today occ); eexists; reflexivity.
Qed.

Lemma own_entry_cases (today : datetime) (record : Record_.t) :
  match own_entry today record with
  | Ok (Some e) =>
      is_kept today record = true
      /\ entry_name e = value (Record_.name record)
  | Ok None => is_kept today record = false
  | Raise e => exists why, e = DateError why
  end.
Proof.
  unfold own_entry, is_kept.
  destruct (Record_.birthday record) as [b|]; [|reflexivity].
  destruct (AddressBook.occurrence today b) as [occ|e] eqn:Ho; cbn [bind].
  - destruct (in_window today occ); [split|]; reflexivity.
  - now apply occurrence_raise in Ho.
Qed.

Lemma collect_own_names (today : datetime) (book : AddressBook.t) :
  Forall (fun kv => value (Record_.name (snd kv)) = fst kv) book ->
  match collect (map (own_entry today) (dict_values book)) with
  | Ok l =>
      map entry_name l
      = map fst (filter (fun kv => is_kept today (snd kv)) book)
  | Raise e => exists why, e = DateError why
  end.
Proof.
  unfold dict_values.
  induction book as [|[k r] book IH]; intros Hn; cbn [map collect filter snd];
    [reflexivity|].
  inversion Hn as [|? ? Hk Hn']; subst. cbn in Hk.
  specialize (IH Hn').
  pose proof (own_entry_cases today r) as Hc.
  destruct (own_entry today r) as [[e|]|x]; cbn [bind]; [| |exact Hc].
  - destruct Hc as [-> He].
    destruct (collect (map (own_entry today) (map snd book))) as [l|x];
      cbn [bind]; [|exact IH].
    cbn. now rewrite He, Hk, IH.
  - rewrite Hc.
    destruct (collect (map (own_entry today) (map snd book))) as [l|x];
      cbn [bind]; exact IH.
Qed.

Lemma NoDup_keys_filter {V : Type} (keep : string * V -> bool)
  (d : list (string * V)) :
  NoDup (map fst d) -> NoDup (map fst (filter keep d)).
Proof.
  induction d as [|kv d IH]; cbn; intros Hd; [constructor|].
  inversion Hd as [|? ? Hk Hd']; subst.
  destruct (keep kv); [|now apply IH].
  cbn. constructor; [|now apply IH].
  intros H. apply Hk. apply in_map_iff in H as (x & Hx & Hin).
  apply filter_In in Hin as [Hin _]. apply in_map_iff. now exists x.
Qed.



(** X18. On a book the handlers built, the query lists exactly the contacts
    whose birthday occurs within the window, in the order of the book and
    once each: the names of the entries are the keys of the kept records, no
    name comes twice, and each is the name of a contact of the book.  The
    only exceptions it can raise are those of the date arithmetic: the
    lookup by the record's name never fails. *)
Theorem X18_upcoming_on_reachable (book : AddressBook.t) (today : datetime) :
  reachable book ->
  match AddressBook.get_upcoming_birthdays book today with
  | Ok l =>
      map entry_name l
      = map fst (filter (fun kv => is_kept today (snd kv)) book)
      /\ NoDup (map entry_name l)
      /\ (List.length l <= List.length book)%nat
      /\ Forall (fun e => In (entry_name e) (map fst book)) l
  | Raise e => exists why, e = DateError why
  end.
Proof.
  intros Hr. pose proof (reachable_is_well_formed book Hr) as Hw.
  rewrite (upcoming_exact_own book today Hw).
  pose proof (collect_own_names today book (proj2 Hw)) as H.
  destruct (collect _) as [l|e]; [|exact H].
  split; [exact H|]. split; [|split].
  - rewrite H. apply NoDup_keys_filter. exact (proj1 Hw).
  - rewrite <- (length_map entry_name), H, length_map. apply filter_length_le.
  - apply Forall_forall. intros e He.
    assert (Hin : In (entry_name e) (map entry_name l))
      by (apply in_map_iff; now exists e).
    rewrite H in Hin. apply in_map_iff in Hin as (kv & <- & Hkv).
    apply filter_In in Hkv as [Hkv _]. apply in_map_iff. now exists kv.
Qed.

(** Witness for X18: Ann with a birthday in the window and Bob without a
    birthday, added by the handlers. *)
Lemma X18_upcoming_on_reachable_witness :
  let ann := Record_.mk (mk_Field "Ann") [mk_Field "1111111111"]
               (Some (mk_Field (mk_datetime 1990 6 15 0 0 0 0))) in
  let bob := Record_.mk (mk_Field "Bob") [mk_Field "2222222222"] None in
  let book := [("Ann", ann); ("Bob", bob)] in
  let today := mk_datetime 2024 6 10 10 30 0 0 in
  match AddressBook.get_upcoming_birthdays book today with
  | Ok l =>
      map entry_name l
      = map fst (filter (fun kv => is_kept today (snd kv)) book)
      /\ NoDup (map entry_name l)
      /\ (List.length l <= List.length book)%nat
      /\ Forall (fun e => In (entry_name e) (map fst book)) l
  | Raise e => exists why, e = DateError why
  end.
Proof.
  cbv zeta. apply X18_upcoming_on_reachable.
  pose (today := mk_datetime 2024 6 10 10 30 0 0).
  change (reachable
            (fst (handle (Add "Bob" "2222222222")
              (fst (handle (AddBirthday "Ann" "15.06.1990")
                 (fst (handle (Add "Ann" "1111111111") [] today)) today))
              today))).
  repeat apply reach_step. apply reach_empty.
Defined.

Lemma add_days_cases (dt : datetime) (k : Z) :
  time_ok dt ->
  datetime_add_days dt k
  = if (0 <? toordinal dt + k) && (toordinal dt + k <=? MAXORDINAL)
    then Ok (plus_days dt k)
    else Raise (DateError ResultRange).
Proof.
  intros Ht.
  destruct ((0 <? toordinal dt + k) && (toordinal dt + k <=? MAXORDINAL))
    eqn:Hr.
  - apply add_days_plus; [exact Ht|].
    apply andb_true_iff in Hr as [H1 H2].
    apply Z.ltb_lt in H1. apply Z.leb_le in H2. lia.
  - destruct Ht as (Hh & Hmi & Hs & Hus).
    unfold datetime_add_days, timedelta_new.
    cbv zeta. cbn [days seconds microseconds].
    assert (E1 : microsecond dt / 1000000 = 0)
      by (Z.div_mod_to_equations; lia).
    assert (E3 : day_seconds dt / 86400 = 0)
      by (unfold day_seconds; Z.div_mod_to_equations; lia).
    rewrite E1, Z.add_0_r, E3, Z.add_0_r, Hr. reflexivity.
Qed.

(** X26. [next_monday] on a day of the calendar: it returns the day
    [(7 - weekday) % 7] days later, a Monday, at the same time of day, unless
    that day is after 31 December 9999, and then it raises the overflow
    error of the date arithmetic; it returns for every day up to
    25 December 9999. *)
Theorem X26_next_monday_returns (d : datetime) :
  date_ok d -> time_ok d ->
  AddressBook.next_monday d
  = (if toordinal d + (7 - weekday d) mod 7 <=? MAXORDINAL
     then Ok (plus_days d ((7 - weekday d) mod 7))
     else Raise (DateError ResultRange))
  /\ (toordinal d + 6 <= MAXORDINAL ->
      AddressBook.next_monday d = Ok (plus_days d ((7 - weekday d) mod 7))
      /\ weekday (plus_days d ((7 - weekday d) mod 7)) = 0).
Proof.
  intros Hd Ht. pose proof (toordinal_bounds d Hd) as Hb.
  pose proof (weekday_range d) as Hw.
  assert (Hk : 0 <= (7 - weekday d) mod 7 <= 6)
    by (pose proof (Z.mod_pos_bound (7 - weekday d) 7); lia).
  assert (He : AddressBook.next_monday d
               = if toordinal d + (7 - weekday d) mod 7 <=? MAXORDINAL
                 then Ok (plus_days d ((7 - weekday d) mod 7))
                 else Raise (DateError ResultRange)).
  { unfold AddressBook.next_monday. cbv zeta. rewrite (add_days_cases _ _ Ht).
    replace (0 <? toordinal d + (7 - weekday d) mod 7) with true;
      [reflexivity|].
    symmetry. apply Z.ltb_lt. lia. }
  split; [exact He|]. intros Hr. rewrite He.
  destruct (Z.leb_spec (toordinal d + (7 - weekday d) mod 7) MAXORDINAL);
    [|lia].
  split; [reflexivity|].
  unfold weekday at 1. rewrite plus_days_ordinal by lia.
  unfold weekday in *. Z.div_mod_to_equations. lia.
Qed.

(** Witness for X26: Sunday 16 June 2024, 10:30. *)
Lemma X26_next_monday_returns_witness :
  let d := mk_datetime 2024 6 16 10 30 0 0 in
  AddressBook.next_monday d = Ok (plus_days d ((7 - weekday d) mod 7))
  /\ weekday (plus_days d ((7 - weekday d) mod 7)) = 0.
Proof.
  cbv zeta.
  apply (X26_next_monday_returns (mk_datetime 2024 6 16 10 30 0 0)).
  - unfold date_ok. cbn [year month day].
    change (days_in_month 2024 6) with 30. lia.
  - unfold time_ok. cbn. lia.
  - vm_compute. discriminate.
Defined.

(* ------------------------------------------------------------------------- *)
(** ** Further properties: reading a command *)

Lemma no_space_app (a b : string) :
  no_space (a ++ b) = no_space a && no_space b.
Proof.
  induction a as [|c a IH]; cbn; [reflexivity|].
  now rewrite IH, andb_assoc.
Qed.

Lemma app_not_empty (a : string) (c : ascii) : a ++ String c "" <> "".
Proof. destruct a; discriminate. Qed.

Lemma split_from_words (s : string) :
  forall word : string,
    no_space word = true ->
    Forall (fun t => t <> "" /\ no_space t = true) (split_from s word).
Proof.
  induction s as [|c s IH]; intros word Hw; cbn.
  - destruct word; repeat constructor; [discriminate|exact Hw].
  - destruct (is_space c) eqn:Hc.
    + destruct word as [|a word]; [now apply IH|].
      constructor; [split; [discriminate|exact Hw]|now apply IH].
    + apply IH. rewrite no_space_app, Hw. cbn. now rewrite Hc.
Qed.

(** X19. The words [split] cuts a line into are not empty and contain no
    blank character: no space, tab or line feed reaches a handler in an
    argument. *)
Theorem X19_split_words (s : string) :
  Forall (fun t => t <> "" /\ no_space t = true) (split s).
Proof.
  unfold split. apply split_from_words. reflexivity.
Qed.

Lemma no_space_not_lf (ds : string) : no_space (ds ++ NL) = false.
Proof.
  rewrite no_space_app. cbn. now rewrite andb_false_r.
Qed.

Lemma datetime_new_converted (y m d h mi s us : Z) (rest : string) :
  datetime_new y m d h mi s us <> Raise (DateError (Unconverted rest)).
Proof.
  unfold datetime_new, check_date_fields, check_time_fields.
  repeat match goal with
         | |- context [if ?t then _ else _] => destruct t; cbn [bind]
         end; discriminate.
Qed.

Lemma birthday_init_converted (t : string) :
  no_space t = true ->
  forall rest, Birthday.init t <> Raise (DateError (Unconverted rest)).
Proof.
  intros Hn rest. unfold Birthday.init.
  destruct (Birthday.validate t) eqn:Hv; cbn [negb]; [|discriminate].
  rewrite birthday_validate_shape in Hv. unfold after_shape in Hv.
  do 10 (destruct t as [|? t]; [discriminate Hv|]).
  destruct (shape_ok a a0 a1 a2 a3 a4 a5 a6 a7 a8) eqn:Hs; [|discriminate Hv].
  rewrite (strptime_shape _ _ _ _ _ _ _ _ _ _ t Hs).
  apply at_end_cases in Hv as [-> | ->].
  - destruct ((1 <=? two a a0) && (two a a0 <=? 31) && (1 <=? two a2 a3)
              && (two a2 a3 <=? 12)); cbn [bind]; [|discriminate].
    pose proof (datetime_new_converted (four a5 a6 a7 a8) (two a2 a3)
                  (two a a0) 0 0 0 0 rest) as Hc.
    destruct (datetime_new _ _ _ _ _ _ _); cbn [bind]; [discriminate|].
    intros [= ->]. now apply Hc.
  - exfalso.
    change (no_space
              (String a (String a0 (String a1 (String a2 (String a3 (String a4
                (String a5 (String a6 (String a7 (String a8 ""))))))))) ++ NL)
            = true) in Hn.
    now rewrite no_space_not_lf in Hn.
Qed.

(** X20. A word of a command line does not end in a line feed, so what the
    validators accept of it they accept at full length: a word that passes
    phone validation has exactly ten characters, a word that passes the
    shape check of a birthday has exactly ten characters, and the
    construction of a birthday from a word never fails with data left
    unconverted (the inputs of C3 and C4 cannot come from the command
    line). *)
Theorem X20_words_pass_at_ten_characters (line t : string) :
  In t (split line) ->
  (forall ds : string, t <> ds ++ NL)
  /\ (Phone.validate t = true -> String.length t = 10%nat)
  /\ (Birthday.validate t = true -> String.length t = 10%nat)
  /\ (forall rest : string,
        Birthday.init t <> Raise (DateError (Unconverted rest))).
Proof.
  intros Hin. pose proof (split_from_words line "" eq_refl) as Hf.
  rewrite Forall_forall in Hf. destruct (Hf t Hin) as [_ Hn].
  split; [|split; [|split]].
  - intros ds ->. now rewrite no_space_not_lf in Hn.
  - intros Hv. apply phone_validate_spec in Hv as (ds & Hd & [->| ->]).
    + unfold ten_digits in Hd. apply andb_true_iff in Hd as [Hl _].
      now apply Nat.eqb_eq in Hl.
    + now rewrite no_space_not_lf in Hn.
  - intros Hv. apply birthday_validate_spec in Hv as (ds & Hd & [->| ->]).
    + unfold dmY_shape, dmY_fields in Hd.
      do 10 (destruct ds as [|? ds]; [discriminate|]).
      destruct ds; [reflexivity|discriminate].
    + now rewrite no_space_not_lf in Hn.
  - now apply birthday_init_converted.
Qed.

(** Witness for X20: the phone of the line [add Ann 1234567890]. *)
Lemma X20_words_pass_at_ten_characters_witness :
  "1234567890" <> "123456789" ++ NL
  /\ String.length "1234567890" = 10%nat
  /\ Birthday.init "1234567890" <> Raise (DateError (Unconverted "")).
Proof.
  destruct (X20_words_pass_at_ten_characters "add Ann 1234567890"
              "1234567890") as (H1 & H2 & _ & H4).
  - cbn. auto.
  - split; [apply H1|]. split; [apply H2; reflexivity|apply H4].
Defined.

Lemma split_lstrip (s : string) : split_from (lstrip s) "" = split_from s "".
Proof.
  induction s as [|c s IH]; cbn; [reflexivity|].
  destruct (is_space c) eqn:Hc; [exact IH|]. cbn. now rewrite Hc.
Qed.

Lemma split_rstrip (s : string) :
  forall word : string, split_from (rstrip s) word = split_from s word.
Proof.
  induction s as [|c s IH]; intros word; [reflexivity|].
  cbn [rstrip]. destruct (rstrip s) as [|a r] eqn:Hr.
  - destruct (is_space c) eqn:Hc; cbn; rewrite Hc.
    + destruct word; rewrite <- IH; reflexivity.
    + now rewrite <- IH.
  - cbn [split_from]. destruct (is_space c).
    + destruct word; now rewrite <- IH.
    + now rewrite <- IH.
Qed.

Lemma split_strip (s : string) : split (strip s) = split s.
Proof.
  unfold split, strip. now rewrite split_lstrip, split_rstrip.
Qed.

Lemma rstrip_no_space (t : string) : no_space t = true -> rstrip t = t.
Proof.
  induction t as [|c t IH]; cbn; [reflexivity|].
  intros H. apply andb_true_iff in H as [Hc Ht]. rewrite (IH Ht).
  apply negb_true_iff in Hc. rewrite Hc. now destruct t.
Qed.

Lemma strip_no_space (t : string) : no_space t = true -> strip t = t.
Proof.
  intros H. unfold strip. rewrite (rstrip_no_space t H).
  destruct t as [|c t]; [reflexivity|]. cbn in *.
  apply andb_true_iff in H as [Hc _]. apply negb_true_iff in Hc.
  now rewrite Hc.
Qed.

Lemma main_loop_body_words (book : AddressBook.t) (today : datetime)
  (line : string) :
  main_loop_body book today line
  = match split line with
    | [] => Uncaught
    | w :: args => dispatch book today (lower w) args
    end.
Proof.
  unfold main_loop_body, parse_input. cbv zeta. rewrite !split_strip.
  pose proof (split_from_words line "" eq_refl) as Hf. fold (split line) in Hf.
  destruct (split line) as [|w args]; [reflexivity|].
  inversion Hf as [|? ? [_ Hw] _]; subst. now rewrite (strip_no_space w Hw).
Qed.

(** X21. One turn of the loop depends on the words of the line only: blanks
    before, between and after the words do not matter, the first word is the
    command, read without regard to case, and the other words are the
    arguments as typed. *)
Theorem X21_loop_reads_words (book : AddressBook.t) (today : datetime)
  (line : string) :
  main_loop_body book today line
  = match split line with
    | [] => Uncaught
    | w :: args => dispatch book today (lower w) args
    end.
Proof. apply main_loop_body_words. Qed.

Lemma split_from_nil (s : string) :
  forall word, split_from s word = [] <-> word = "" /\ all_space s = true.
Proof.
  induction s as [|c s IH]; intros word; cbn.
  - destruct word; split; try discriminate; intuition discriminate.
  - destruct (is_space c); cbn.
    + destruct word.
      * rewrite IH. tauto.
      * split; [discriminate|]. intros [H _]. discriminate H.
    + rewrite IH. split; [|intros [_ H]; discriminate H].
      intros [H _]. now apply app_not_empty in H.
Qed.

(** X22. A line without a word, empty or all blanks, ends the program: the
    unpacking in [parse_input] raises outside every handler and [main]
    catches only the keyboard interrupt, so the book is not saved.  Every
    other line is dispatched. *)
Theorem X22_blank_line_uncaught (book : AddressBook.t) (today : datetime)
  (line : string) :
  main_loop_body book today line = Uncaught <-> all_space line = true.
Proof.
  rewrite main_loop_body_words.
  pose proof (split_from_nil line "") as Hn. fold (split line) in Hn.
  destruct (split line) as [|w args] eqn:Hs.
  - split; [intros _; now apply Hn|reflexivity].
  - split.
    + unfold dispatch.
      repeat match goal with
             | |- context [if ?t then _ else _] => destruct t
             | |- context [match ?a with [] => _ | _ :: _ => _ end] =>
                 destruct a
             | |- context [let '(_, _) := ?p in _] => destruct p
             end; discriminate.
    + intros Ha. assert (H : w :: args = []) by (apply Hn; auto).
      discriminate H.
Qed.

(* ------------------------------------------------------------------------- *)
(** ** Further properties: the dispatch *)

(** X23. A command with a checked number of arguments that gets another
    number of them prints one message about the number of arguments and
    leaves the book as it was; no handler runs. *)
Theorem X23_wrong_arity (book : AddressBook.t) (today : datetime)
  (cmd : string) (n : nat) (args : list string) :
  In (cmd, n)
     [("add", 2%nat); ("change", 3%nat); ("phone", 1%nat);
      ("add-birthday", 2%nat); ("show-birthday", 1%nat)] ->
  List.length args <> n ->
  exists msg : string,
    dispatch book today cmd args = Continue book [msg]
    /\ prefix ("Invalid number of arguments for command '" ++ cmd ++ "'")
         msg = true.
Proof.
  intros Hin Hl. cbn in Hin.
  repeat (destruct Hin as [[= <- <-]|Hin];
          [destruct args as [|a [|b [|c [|d l]]]]; cbn in Hl;
           try contradiction; eexists; split; reflexivity|]).
  contradiction.
Qed.

(** Witness for X23: [add Ann] without a phone. *)
Lemma X23_wrong_arity_witness :
  exists msg : string,
    dispatch [] (mk_datetime 2024 6 10 10 30 0 0) "add" ["Ann"]
    = Continue [] [msg]
    /\ prefix ("Invalid number of arguments for command '" ++ "add" ++ "'")
         msg = true.
Proof.
  apply (X23_wrong_arity [] (mk_datetime 2024 6 10 10 30 0 0) "add" 2 ["Ann"]).
  - cbn. auto.
  - cbn. discriminate.
Defined.

Lemma dispatch_handle (book : AddressBook.t) (today : datetime)
  (cmd : string) (args : list string) :
  match dispatch book today cmd args with
  | Continue book' _ =>
      book' = book
      \/ (writes cmd = true
          /\ exists c : command, book' = fst (handle c book today))
  | Break saved _ => saved = book
  | Uncaught => False
  end.
Proof.
  unfold dispatch, writes.
  destruct (String.eqb cmd "hello"); [now left|].
  destruct (String.eqb cmd "add").
  { destruct args as [|nm [|phone [|x l]]]; try (now left).
    destruct (add_contact book nm phone) as [book' s] eqn:E. right.
    split; [reflexivity|]. exists (Add nm phone). cbn. now rewrite E. }
  destruct (String.eqb cmd "change").
  { destruct args as [|nm [|o [|n [|x l]]]]; try (now left).
    destruct (edit_contact_phone book nm o n) as [book' s] eqn:E. right.
    split; [reflexivity|]. exists (Change nm o n). cbn. now rewrite E. }
  destruct (String.eqb cmd "phone").
  { destruct args as [|nm [|x l]]; now left. }
  destruct (String.eqb cmd "all"); [now left|].
  destruct (String.eqb cmd "add-birthday").
  { destruct args as [|nm [|b [|x l]]]; try (now left).
    destruct (add_birthday book nm b) as [book' s] eqn:E. right.
    split; [reflexivity|]. exists (AddBirthday nm b). cbn. now rewrite E. }
  destruct (String.eqb cmd "show-birthday").
  { destruct args as [|nm [|x l]]; now left. }
  destruct (String.eqb cmd "birthdays"); [now left|].
  destruct (String.eqb cmd "close" || String.eqb cmd "exit");
    [reflexivity|].
  destruct (String.eqb cmd "help"); now left.
Qed.

(** X24. Only [add], [change] and [add-birthday] can change the book: every
    other command, known or not, with any arguments, goes on with the book
    as it was, or ends the loop saving the book as it was. *)
Theorem X24_only_three_commands_write (book : AddressBook.t)
  (today : datetime) (cmd : string) (args : list string) :
  writes cmd = false ->
  match dispatch book today cmd args with
  | Continue book' _ => book' = book
  | Break saved _ => saved = book
  | Uncaught => False
  end.
Proof.
  intros Hw. pose proof (dispatch_handle book today cmd args) as H.
  destruct (dispatch book today cmd args) as [book' out|saved out|];
    [|exact H|exact H].
  destruct H as [H|[H _]]; [exact H|congruence].
Qed.

(** Witness for X24: an unknown command. *)
Lemma X24_only_three_commands_write_witness :
  match dispatch [] (mk_datetime 2024 6 10 10 30 0 0) "delete" ["Ann"] with
  | Continue book' _ => book' = []
  | Break saved _ => saved = []
  | Uncaught => False
  end.
Proof.
  apply (X24_only_three_commands_write [] (mk_datetime 2024 6 10 10 30 0 0)
           "delete" ["Ann"]).
  reflexivity.
Defined.

(** X25. The loop keeps the book among those the handlers can build:
    whatever line is read, the book the loop goes on with is built by the
    handlers from the empty book if the book before was, and the book saved
    on [close] or [exit] is the book as it was. *)
Theorem X25_loop_keeps_reachable (book : AddressBook.t) (today : datetime)
  (line : string) :
  reachable book ->
  match main_loop_body book today line with
  | Continue book' _ => reachable book'
  | Break saved _ => saved = book
  | Uncaught => True
  end.
Proof.
  intros Hr. rewrite main_loop_body_words.
  destruct (split line) as [|w args]; [exact I|].
  pose proof (dispatch_handle book today (lower w) args) as H.
  destruct (dispatch book today (lower w) args) as [book' out|saved out|];
    [|exact H|exact I].
  destruct H as [->|[_ (c & ->)]]; [exact Hr|now apply reach_step].
Qed.

(** Witness for X25: the line [ADD Ann 1111111111] on the empty book. *)
Lemma X25_loop_keeps_reachable_witness :
  match main_loop_body [] (mk_datetime 2024 6 10 10 30 0 0)
          "ADD Ann 1111111111" with
  | Continue book' _ => reachable book'
  | Break saved _ => saved = []
  | Uncaught => True
  end.
Proof.
  apply (X25_loop_keeps_reachable [] (mk_datetime 2024 6 10 10 30 0 0)
           "ADD Ann 1111111111").
  apply reach_empty.
Defined.
